(** * The /images handler of server.js: model and properties

    The handler resolves a free-text query to one movie-or-tv entity of the
    upstream multi search, fetches that entity's image catalog and groups
    the image URLs by language.  The development follows the handler from
    top to bottom: JavaScript strings and objects first, then the upstream
    records, the three groupings, the skipped list, and the handler with its
    outbound calls. *)

From Stdlib Require Import String Ascii List Bool ZArith NArith Lia.
From Stdlib Require Import DecimalString Permutation.
Import ListNotations.
Local Open Scope string_scope.
Local Open Scope list_scope.

(** ** JavaScript strings

    A JavaScript string is kept as the [string] of its UTF-8 bytes: [===]
    is [String.eqb], [+] is [append].  The truth value of a string is
    "non-empty". *)

Module Js.

Definition truthy (s : string) : bool :=
  match s with EmptyString => false | String _ _ => true end.

(** [a || b] on strings-or-undefined. *)
Definition or_else (a : option string) (b : string) : string :=
  match a with
  | Some s => if truthy s then s else b
  | None => b
  end.

(** *** String.prototype.trim

    [trim] removes the WhiteSpace and LineTerminator code points of
    ECMAScript from both ends: U+0009..U+000D, U+0020, U+00A0, U+1680,
    U+2000..U+200A, U+2028, U+2029, U+202F, U+205F, U+3000 and U+FEFF.  On
    UTF-8 bytes these are six single bytes, one two-byte sequence and the
    three-byte sequences listed in [ws3]. *)

Definition code (c : ascii) : N := N_of_ascii c.

Definition ws1 (a : ascii) : bool :=
  ((9 <=? code a) && (code a <=? 13))%N || (code a =? 32)%N.

Definition ws2 (a b : ascii) : bool :=
  ((code a =? 194) && (code b =? 160))%N.

Definition ws3 (a b c : ascii) : bool :=
  (((code a =? 225) && (code b =? 154) && (code c =? 128))
   || ((code a =? 226) && (code b =? 128)
       && (((128 <=? code c) && (code c <=? 138))
           || (code c =? 168) || (code c =? 169) || (code c =? 175)))
   || ((code a =? 226) && (code b =? 129) && (code c =? 159))
   || ((code a =? 227) && (code b =? 128) && (code c =? 128))
   || ((code a =? 239) && (code b =? 187) && (code c =? 191)))%N.

(** Strips white space from the front of a byte list.  With [back] the list
    is a reversed string, so multi-byte sequences are met last byte first. *)
Fixpoint strip (back : bool) (s : list ascii) : list ascii :=
  match s with
  | [] => []
  | a :: s1 =>
      if ws1 a then strip back s1
      else
        match s1 with
        | b :: s2 =>
            if (if back then ws2 b a else ws2 a b) then strip back s2
            else
              match s2 with
              | c :: s3 =>
                  if (if back then ws3 c b a else ws3 a b c)
                  then strip back s3
                  else s
              | [] => s
              end
        | [] => s
        end
  end.

Definition trim (s : string) : string :=
  string_of_list_ascii
    (rev (strip true (rev (strip false (list_ascii_of_string s))))).

(** *** Array.prototype.includes and join on strings *)

Definition includes (l : list string) (x : string) : bool :=
  existsb (String.eqb x) l.

Fixpoint join (sep : string) (l : list string) : string :=
  match l with
  | [] => ""
  | [x] => x
  | x :: rest => (x ++ sep ++ join sep rest)%string
  end.

(** ** JavaScript objects used as maps from a language key to an array

    An object is the list of its own properties in creation order; every
    value the handler stores is an array of URL strings.  The three
    groupings are ordinary objects, so a property read that finds no own
    property continues in [Object.prototype]. *)

Definition object := list (string * list string).

Definition object_prototype_names : list string :=
  [ "constructor"; "__defineGetter__"; "__defineSetter__"; "hasOwnProperty";
    "__lookupGetter__"; "__lookupSetter__"; "isPrototypeOf";
    "propertyIsEnumerable"; "toString"; "valueOf"; "__proto__";
    "toLocaleString" ].

Definition inherited (k : string) : bool := includes object_prototype_names k.

Fixpoint own (o : object) (k : string) : option (list string) :=
  match o with
  | [] => None
  | (k', arr) :: rest => if String.eqb k' k then Some arr else own rest k
  end.

(** What [o[k]] evaluates to. *)
Inductive property :=
| Array (arr : list string)
| Builtin
| Undefined.

Definition get (o : object) (k : string) : property :=
  match own o k with
  | Some arr => Array arr
  | None => if inherited k then Builtin else Undefined
  end.

(** Arrays, functions and objects are truthy, [undefined] is not. *)
Definition truthy_property (p : property) : bool :=
  match p with Undefined => false | _ => true end.

(** [o[k] = []] for a [k] that is no own property yet and not ["__proto__"]:
    the new property comes last. *)
Definition define (o : object) (k : string) : object := o ++ [(k, [])].

Fixpoint push_own (o : object) (k u : string) : object :=
  match o with
  | [] => []
  | (k', arr) :: rest =>
      if String.eqb k' k then (k', arr ++ [u]) :: rest
      else (k', arr) :: push_own rest k u
  end.

(** The names of the own properties, in creation order.  [Object.keys]
    returns the same names and moves those that are array indices to the
    front. *)
Definition keys (o : object) : list string := map fst o.

(** Exceptions the handler can meet. *)
Inductive error :=
| TypeError (message : string)
| AxiosError (response_data : option string) (message : string).

Inductive result (A : Type) :=
| Ok (a : A)
| Thrown (e : error).
Arguments Ok {A} a.
Arguments Thrown {A} e.

(** [o[k].push(u)], written [site.push(u)] in the source: pushes on the own
    array; a built-in of [Object.prototype] has no [push] and [undefined]
    has no properties, so the call throws on both. *)
Definition push (site : string) (o : object) (k u : string) : result object :=
  match get o k with
  | Array _ => Ok (push_own o k u)
  | Builtin => Thrown (TypeError (site ++ ".push is not a function")%string)
  | Undefined =>
      Thrown (TypeError "Cannot read properties of undefined (reading 'push')")
  end.

(** [arr.forEach] with a body that updates a local object and may throw. *)
Fixpoint for_each {A S : Type} (body : S -> A -> result S) (s : S)
  (arr : list A) : result S :=
  match arr with
  | [] => Ok s
  | a :: rest =>
      match body s a with
      | Ok s' => for_each body s' rest
      | Thrown e => Thrown e
      end
  end.

(** [o.k.length] as the handler reads it at lines 106-112: always of a
    property created at line 77 or 87, which no loop removes.  Where [o] has
    no own property [k], a case these reads never meet, the value is 0. *)
Definition length_at (o : object) (k : string) : nat :=
  match own o k with Some arr => length arr | None => 0 end.

End Js.

(** ** Upstream records (TMDb) *)

Module Tmdb.

(** One element of [multi.data.results]. *)
Record SearchResult := {
  id : Z;
  media_type : string;
  title : option string;
  name : option string
}.

(** One element of [images.backdrops], [images.posters] or [images.logos];
    [iso_639_1] is a language code or [null]. *)
Record ImageAsset := {
  file_path : string;
  iso_639_1 : option string
}.

(** Body of the search reply; [results] is [None] when it is no array. *)
Record MultiData := {
  results : option (list SearchResult)
}.

(** Body of the image reply; a list is [None] when the body lacks it. *)
Record Images := {
  backdrops : option (list ImageAsset);
  posters : option (list ImageAsset);
  logos : option (list ImageAsset)
}.

End Tmdb.
Import Tmdb.

(** ** Selection of the entity (lines 40-57) *)

Definition is_movie_or_tv (r : SearchResult) : bool :=
  (media_type r =? "movie") || (media_type r =? "tv").

(** [Array.isArray(multi.data?.results) ? multi.data.results : []] *)
Definition results_of (data : option MultiData) : list SearchResult :=
  match data with
  | Some d => match results d with Some rs => rs | None => [] end
  | None => []
  end.

(** [results.find(movie or tv) || results[0]]; an element is an object and
    so truthy. *)
Definition first (rs : list SearchResult) : option SearchResult :=
  match find is_movie_or_tv rs with
  | Some r => Some r
  | None => nth_error rs 0
  end.

(** [first.title || first.name || "Unknown"] *)
Definition title_of (r : SearchResult) : string :=
  Js.or_else (title r) (Js.or_else (name r) "Unknown").

(** ** Grouping (lines 70-101) *)

Definition IMG_URL : string := "https://image.tmdb.org/t/p/original".

Definition asFull (arr : list ImageAsset) : list string :=
  map (fun i => (IMG_URL ++ file_path i)%string) arr.

(** [x.iso_639_1 === null ? "null" : x.iso_639_1] *)
Definition lang_key (x : ImageAsset) : string :=
  match iso_639_1 x with
  | None => "null"
  | Some code => code
  end.

(** [images.backdrops || []] and its siblings. *)
Definition or_empty (arr : option (list ImageAsset)) : list ImageAsset :=
  match arr with Some l => l | None => [] end.

Definition backdropLangs : list (option string) := [Some "en"; Some "hi"; None].

Definition same_code (a b : option string) : bool :=
  match a, b with
  | Some x, Some y => x =? y
  | None, None => true
  | _, _ => false
  end.

(** [backdropLangs.includes(code)] *)
Definition includes_code (l : list (option string)) (code : option string)
  : bool :=
  existsb (same_code code) l.

Definition backdrop_body (o : Js.object) (b : ImageAsset)
  : Js.result Js.object :=
  let lang := lang_key b in
  if includes_code backdropLangs (iso_639_1 b) || (lang =? "null")
  then Js.push "groupedBackdrops[lang]" o lang (IMG_URL ++ file_path b)%string
  else Js.Ok o.

Definition groupedBackdrops (images : Images) : Js.result Js.object :=
  Js.for_each backdrop_body [("en", []); ("hi", []); ("null", [])]
    (or_empty (backdrops images)).

Definition posterLangs : list string := ["en"; "hi"; "ta"; "te"; "ja"; "ko"].

(** [posterLangs.includes(null)] is false: the array holds strings only. *)
Definition poster_body (o : Js.object) (p : ImageAsset)
  : Js.result Js.object :=
  match iso_639_1 p with
  | Some lang =>
      if Js.includes posterLangs lang
      then Js.push "groupedPosters[lang]" o lang (IMG_URL ++ file_path p)%string
      else Js.Ok o
  | None => Js.Ok o
  end.

Definition groupedPosters (images : Images) : Js.result Js.object :=
  Js.for_each poster_body (map (fun l => (l, [])) posterLangs)
    (or_empty (posters images)).

Definition logo_body (o : Js.object) (l : ImageAsset) : Js.result Js.object :=
  let lang := lang_key l in
  let o' :=
    if Js.truthy_property (Js.get o lang) then o else Js.define o lang in
  Js.push "groupedLogos[lang]" o' lang (IMG_URL ++ file_path l)%string.

Definition groupedLogos (images : Images) : Js.result Js.object :=
  Js.for_each logo_body [] (or_empty (logos images)).

(** ** The skipped list (lines 103-120) *)

Definition backdrops_label : string := "Backdrops (en/hi/null)".
Definition logos_label : string := "Logos (All Languages)".
Definition posters_label (langs : list string) : string :=
  ("Posters (" ++ Js.join ", " langs ++ ")")%string.

Definition posterSectionsSkipped (gp : Js.object) : list string :=
  filter (fun l => Nat.eqb (Js.length_at gp l) 0) posterLangs.

Definition skipped_list (gb gp gl : Js.object) : list string :=
  (if Nat.eqb (Js.length_at gb "en") 0
      && Nat.eqb (Js.length_at gb "hi") 0
      && Nat.eqb (Js.length_at gb "null") 0
   then [backdrops_label] else [])
  ++ (match posterSectionsSkipped gp with
      | [] => []
      | langs => [posters_label langs]
      end)
  ++ (if Nat.eqb (length (Js.keys gl)) 0 then [logos_label] else []).

(** ** The handler (lines 23-188)

    The process environment, the request and the upstream service are
    arguments of the handler; its result is the response together with the
    outbound calls it made, in order. *)

Module Http.

(** [process.env.TMDB_API_KEY], read once at startup. *)
Record Env := {
  TMDB_API_KEY : option string
}.

(** [req.query.query]: the decoded parameter, [None] when it is missing. *)
Record Request := {
  query_param : option string
}.

Inductive Call :=
| SearchMulti (api_key query : string)
| GetImages (media_type : string) (item_id : Z)
    (api_key include_image_language : string).

(** What the upstream answers to each call; a network failure, a non-2xx
    status or an unreadable body make [axios.get] throw. *)
Record Upstream := {
  search_multi : string -> string -> Js.result (option MultiData);
  images_of : string -> Z -> string -> string -> Js.result (option Images)
}.

Record Detected := {
  detected_media_type : string;
  detected_id : Z;
  detected_title : string
}.

(** The success body.  The [formatted] text block (lines 122-170) is
    computed from the other fields, cannot throw, and is left out. *)
Record Payload := {
  query : string;
  detected : Detected;
  backdrops : Js.object;
  posters : Js.object;
  logos : Js.object;
  skipped : list string
}.

Inductive Body :=
| Error (error : string)
| ErrorDetails (error details : string)
| Success (payload : Payload).

Record Response := {
  status : Z;
  body : Body
}.

(** [res.status(n).json(b)] and [res.json(b)] *)
Definition status_json (n : Z) (b : Body) : Response :=
  {| status := n; body := b |}.
Definition json (b : Body) : Response := status_json 200 b.

(** *** A monad for the body of the [try] block

    A computation threads the log of outbound calls and ends in a value, in
    an early [return res...], or in a thrown exception. *)

Inductive outcome (A : Type) :=
| Continue (a : A)
| Returned (r : Response)
| Raised (e : Js.error).
Arguments Continue {A} a.
Arguments Returned {A} r.
Arguments Raised {A} e.

Definition handler (A : Type) : Type := list Call -> outcome A * list Call.

Definition ret {A} (a : A) : handler A := fun log => (Continue a, log).

Definition bind {A B} (m : handler A) (k : A -> handler B) : handler B :=
  fun log =>
    match m log with
    | (Continue a, log') => k a log'
    | (Returned r, log') => (Returned r, log')
    | (Raised e, log') => (Raised e, log')
    end.

Definition return_ {A} (r : Response) : handler A :=
  fun log => (Returned r, log).

Definition lift {A} (r : Js.result A) : handler A :=
  fun log =>
    match r with
    | Js.Ok a => (Continue a, log)
    | Js.Thrown e => (Raised e, log)
    end.

(** [await axios.get(...)]: the call is logged, then its reply decides. *)
Definition axios_get {A} (c : Call) (reply : Js.result A) : handler A :=
  fun log => lift reply (log ++ [c]).

(** [try { m } catch (err) { return h err }], started with an empty log. *)
Definition try_catch (m : handler Response) (h : Js.error -> Response)
  : Response * list Call :=
  match m [] with
  | (Continue r, log) => (r, log)
  | (Returned r, log) => (r, log)
  | (Raised e, log) => (h e, log)
  end.

Declare Scope handler_scope.
Delimit Scope handler_scope with handler.
Notation "x <- m ;; k" := (bind m (fun x => k))
  (at level 61, m at next level, right associativity) : handler_scope.

End Http.
Import Http.

Definition missing_key_response : Response :=
  status_json 500 (Error "TMDB_API_KEY missing in environment variables").

Definition missing_query_response : Response :=
  status_json 400 (Error "query param is required").

Definition not_found_response : Response :=
  status_json 404 (Error "No result found").

Definition ambiguous_response : Response :=
  status_json 404
    (Error "Top result is not a movie/tv. Try a more specific query (person results are skipped).").

(** [err?.response?.data || err.message] *)
Definition details_of (err : Js.error) : string :=
  match err with
  | Js.TypeError message => message
  | Js.AxiosError data message => Js.or_else data message
  end.

Definition failure_response (err : Js.error) : Response :=
  status_json 500 (ErrorDetails "Error fetching data" (details_of err)).

Definition language_filter : string := "en,hi,ta,te,ja,ko,null".

Definition no_images : Images :=
  {| Tmdb.backdrops := None; Tmdb.posters := None; Tmdb.logos := None |}.

Local Open Scope handler_scope.

(** The [try] block, lines 35-180. *)
Definition resolve_and_group (up : Upstream) (key query : string)
  : handler Response :=
  multi <- axios_get (SearchMulti key query) (search_multi up key query) ;;
  let results := results_of multi in
  match first results with
  | None => return_ not_found_response
  | Some first =>
      let media_type := Tmdb.media_type first in
      if negb (media_type =? "movie")%string && negb (media_type =? "tv")%string
      then return_ ambiguous_response
      else
        let item_id := Tmdb.id first in
        let title := title_of first in
        imagesResp <-
          axios_get (GetImages media_type item_id key language_filter)
            (images_of up media_type item_id key language_filter) ;;
        let images :=
          match imagesResp with Some d => d | None => no_images end in
        gb <- lift (groupedBackdrops images) ;;
        gp <- lift (groupedPosters images) ;;
        gl <- lift (groupedLogos images) ;;
        ret (json (Success
          {| query := query;
             detected :=
               {| detected_media_type := media_type;
                  detected_id := item_id;
                  detected_title := title |};
             backdrops := gb;
             posters := gp;
             logos := gl;
             Http.skipped := skipped_list gb gp gl |}))
  end.

(** [TMDB_API_KEY] as a string: an unset variable tests as the empty one. *)
Definition credential (env : Env) : string :=
  Js.or_else (TMDB_API_KEY env) "".

(** [(req.query.query || "").toString().trim()] *)
Definition trimmed_query (req : Request) : string :=
  Js.trim (Js.or_else (query_param req) "").

(** [app.get("/images", ...)] *)
Definition handle_images (env : Env) (up : Upstream) (req : Request)
  : Response * list Call :=
  let query := trimmed_query req in
  let key := credential env in
  if negb (Js.truthy key) then (missing_key_response, [])
  else if negb (Js.truthy query) then (missing_query_response, [])
  else try_catch (resolve_and_group up key query) failure_response.

(** ** Vocabulary of the properties *)

(** The asset's language key is [k]. *)
Definition has_key (k : string) (a : ImageAsset) : bool :=
  (lang_key a =? k)%string.

(** The asset carries exactly the language code [k]. *)
Definition has_code (k : string) (a : ImageAsset) : bool :=
  match iso_639_1 a with
  | Some code => (code =? k)%string
  | None => false
  end.

(** The object with one bucket per key of [keys], in that order, where the
    bucket of [k] holds the URLs of the assets selected by [sel k], in the
    order of [assets]. *)
Definition buckets (keys : list string) (sel : string -> ImageAsset -> bool)
  (assets : list ImageAsset) : Js.object :=
  map (fun k => (k, asFull (filter (sel k) assets))) keys.

(** The distinct elements of a list, each at its first occurrence. *)
Fixpoint first_seen (l : list string) : list string :=
  match l with
  | [] => []
  | k :: rest => k :: filter (fun k' => negb (k' =? k)%string) (first_seen rest)
  end.

(** Number of URLs an object holds. *)
Definition total (o : Js.object) : nat := length (concat (map snd o)).

Fixpoint starts_with (start s : string) : bool :=
  match start, s with
  | EmptyString, _ => true
  | String a start', String b s' => Ascii.eqb a b && starts_with start' s'
  | String _ _, EmptyString => false
  end.

(** A skipped entry that reports posters. *)
Definition is_posters_entry (entry : string) : bool :=
  starts_with "Posters (" entry.

(** Every URL held by [o] is the image prefix followed by the path of one
    of the assets [seen]. *)
Definition sourced (seen : list ImageAsset) (o : Js.object) : Prop :=
  forall k urls u,
    In (k, urls) o -> In u urls ->
    exists a, In a seen /\ u = (IMG_URL ++ file_path a)%string.

(** ** Sample inputs *)

Module Sample.

Definition asset (path : string) (lang : option string) : ImageAsset :=
  {| file_path := path; iso_639_1 := lang |}.

Definition hit (i : Z) (kind : string) (t : string) : SearchResult :=
  {| id := i; media_type := kind; title := None; name := Some t |}.

(** One English poster and nothing else. *)
Definition one_poster : Images :=
  {| Tmdb.backdrops := Some [];
     Tmdb.posters := Some [asset "/p1.jpg" (Some "en")];
     Tmdb.logos := None |}.

Definition catalog : Images :=
  {| Tmdb.backdrops :=
       Some [asset "/b1.jpg" (Some "en"); asset "/b2.jpg" (Some "fr");
             asset "/b3.jpg" None];
     Tmdb.posters :=
       Some [asset "/p1.jpg" (Some "ta"); asset "/p2.jpg" None];
     Tmdb.logos :=
       Some [asset "/l1.png" (Some "en"); asset "/l2.png" None;
             asset "/l3.png" (Some "en")] |}.

(** A logo whose language code names a built-in of [Object.prototype]. *)
Definition odd_catalog : Images :=
  {| Tmdb.backdrops := None;
     Tmdb.posters := None;
     Tmdb.logos := Some [asset "/l1.png" (Some "constructor")] |}.

Definition mixed_hits : list SearchResult :=
  [hit 11 "person" "A"; hit 22 "tv" "B"; hit 33 "movie" "C"].

Definition people : list SearchResult :=
  [hit 11 "person" "A"; hit 12 "person" "D"].

(** An upstream that answers every search with [hits] and every image
    request with [imgs]. *)
Definition upstream (hits : list SearchResult) (imgs : Images) : Upstream :=
  {| search_multi := fun _ _ => Js.Ok (Some {| results := Some hits |});
     images_of := fun _ _ _ _ => Js.Ok (Some imgs) |}.

Definition env : Env := {| TMDB_API_KEY := Some "k3y" |}.
Definition env_unset : Env := {| TMDB_API_KEY := None |}.

Definition req : Request := {| query_param := Some " Marry My Husband " |}.
Definition req_blank : Request := {| query_param := Some "   " |}.
Definition req_missing : Request := {| query_param := None |}.

(** The success body for [req], [mixed_hits] and [catalog]. *)
Definition payload : Payload :=
  {| query := "Marry My Husband";
     detected :=
       {| detected_media_type := "tv";
          detected_id := 22;
          detected_title := "B" |};
     backdrops :=
       [("en", ["https://image.tmdb.org/t/p/original/b1.jpg"]);
        ("hi", []);
        ("null", ["https://image.tmdb.org/t/p/original/b3.jpg"])];
     posters :=
       [("en", []); ("hi", []);
        ("ta", ["https://image.tmdb.org/t/p/original/p1.jpg"]);
        ("te", []); ("ja", []); ("ko", [])];
     logos :=
       [("en", ["https://image.tmdb.org/t/p/original/l1.png";
                "https://image.tmdb.org/t/p/original/l3.png"]);
        ("null", ["https://image.tmdb.org/t/p/original/l2.png"])];
     Http.skipped := ["Posters (en, hi, te, ja, ko)"] |}.

End Sample.

(** ** Enumeration order of own properties

    [Object.keys] and [Object.entries] list the own properties whose name
    is an array index (the canonical decimal form of an integer from 0 to
    2^32 - 2) first, in ascending numeric order, and then the other
    properties in creation order. *)

Module Enumeration.

Definition digit (c : ascii) : option N :=
  let n := N_of_ascii c in
  if ((48 <=? n) && (n <=? 57))%N then Some (n - 48)%N else None.

Fixpoint digits_value (acc : N) (s : string) : option N :=
  match s with
  | EmptyString => Some acc
  | String c rest =>
      match digit c with
      | Some d => digits_value (10 * acc + d)%N rest
      | None => None
      end
  end.

Definition array_index (k : string) : option N :=
  match k with
  | EmptyString => None
  | String c rest =>
      if (c =? "0")%char
      then match rest with EmptyString => Some 0%N | String _ _ => None end
      else
        match digits_value 0 k with
        | Some n => if (n <=? 4294967294)%N then Some n else None
        | None => None
        end
  end.

Definition is_index (entry : string * list string) : bool :=
  match array_index (fst entry) with Some _ => true | None => false end.

Definition index_of (entry : string * list string) : N :=
  match array_index (fst entry) with Some n => n | None => 0%N end.

Fixpoint insert_by_index (entry : string * list string)
  (sorted : list (string * list string)) : list (string * list string) :=
  match sorted with
  | [] => [entry]
  | e :: rest =>
      if (index_of entry <=? index_of e)%N then entry :: sorted
      else e :: insert_by_index entry rest
  end.

Definition sort_by_index (entries : list (string * list string))
  : list (string * list string) :=
  fold_right insert_by_index [] entries.

(** [Object.entries(o)] *)
Definition entries (o : Js.object) : list (string * list string) :=
  sort_by_index (filter is_index o)
  ++ filter (fun e => negb (is_index e)) o.

End Enumeration.

(** ** The formatted text (lines 122-170)

    [toUpperCase] is [String.prototype.toUpperCase], taken as it is. *)

Section Formatted.

Variable toUpperCase : string -> string.

(** The line feed of the template literals. *)
Definition nl : string := String "010" EmptyString.

(** The decimal text of a number, as a template literal prints it. *)
Definition decimal (n : nat) : string :=
  NilEmpty.string_of_uint (Nat.to_uint n).

(** [list.forEach((url, i) => (formatted += `${i + 1}. ${url}\n`))], with
    the index of the next element. *)
Fixpoint numbered (i : nat) (formatted : string) (urls : list string)
  : string :=
  match urls with
  | [] => formatted
  | url :: rest =>
      numbered (S i) (formatted ++ decimal (i + 1) ++ ". " ++ url ++ nl)%string
        rest
  end.

Definition backTitleMap : list (string * string) :=
  [("en", "🇺🇸 English Landscape"); ("hi", "🇮🇳 Hindi Landscape");
   ("null", "🌐 Clean Landscape")].

Definition posterTitleMap : list (string * string) :=
  [("en", "🇺🇸 English Posters"); ("hi", "🇮🇳 Hindi Posters");
   ("ta", "🇮🇳 Tamil Posters"); ("te", "🇮🇳 Telugu Posters");
   ("ja", "🇯🇵 Japanese Posters"); ("ko", "🇰🇷 Korean Posters")].

(** [titles[k]] inside a template literal; a missing entry prints as
    "undefined". *)
Fixpoint title_in (titles : list (string * string)) (k : string) : string :=
  match titles with
  | [] => "undefined"
  | (k', t) :: rest => if (k' =? k)%string then t else title_in rest k
  end.

(** Body of the loops at lines 130-137 and 147-154; [k] ranges over
    literals that name no built-in, so [grouped[k]] is an own array or
    [undefined], and [list?.length] is truthy for a non-empty array only. *)
Definition section_body (titles : list (string * string))
  (grouped : Js.object) (formatted : string) (k : string) : string :=
  match Js.own grouped k with
  | Some ((_ :: _) as urls) =>
      (numbered 0 (formatted ++ title_in titles k ++ nl) urls ++ nl)%string
  | _ => formatted
  end.

(** Body of the loop at lines 158-163. *)
Definition logo_section_body (formatted : string)
  (entry : string * list string) : string :=
  let (lang, urls) := entry in
  let label :=
    if (lang =? "null")%string then "🌐 No Language"
    else ("🌐 " ++ toUpperCase lang)%string in
  (numbered 0 (formatted ++ label ++ nl) urls ++ nl)%string.

Definition formatted (title media_type : string) (gb gp gl : Js.object)
  (skipped : list string) : string :=
  let f0 :=
    ("🎬 Results for " ++ title ++ " (" ++ toUpperCase media_type ++ ")"
     ++ nl ++ nl)%string in
  let f1 := fold_left (section_body backTitleMap gb) ["en"; "hi"; "null"] f0 in
  let f2 := fold_left (section_body posterTitleMap gp) posterLangs f1 in
  let f3 :=
    match Js.keys gl with
    | [] => f2
    | _ :: _ =>
        fold_left logo_section_body (Enumeration.entries gl)
          (f2 ++ "🎯 Logos (All Languages)" ++ nl)%string
    end in
  match skipped with
  | [] => f3
  | _ :: _ =>
      (fold_left (fun f s => (f ++ "- " ++ s ++ nl)%string) skipped
         (f3 ++ "⚠️ Skipped:" ++ nl) ++ nl)%string
  end.

(** The text block of a success body. *)
Definition formatted_of (p : Payload) : string :=
  formatted (detected_title (detected p))
    (detected_media_type (detected p))
    (backdrops p) (posters p) (logos p) (Http.skipped p).

(** *** The same text, section by section *)

Definition numbered_lines (urls : list string) : list string :=
  map (fun iu => (decimal (fst iu + 1) ++ ". " ++ snd iu ++ nl)%string)
    (combine (seq 0 (length urls)) urls).

Definition flatten (parts : list string) : string :=
  fold_right append EmptyString parts.

Definition section_text (heading : string) (urls : list string) : string :=
  (heading ++ nl ++ flatten (numbered_lines urls) ++ nl)%string.

Definition fixed_section (titles : list (string * string))
  (grouped : Js.object) (k : string) : string :=
  match Js.own grouped k with
  | Some ((_ :: _) as urls) => section_text (title_in titles k) urls
  | _ => EmptyString
  end.

Definition logo_section (entry : string * list string) : string :=
  section_text
    (if (fst entry =? "null")%string then "🌐 No Language"
     else ("🌐 " ++ toUpperCase (fst entry))%string)
    (snd entry).

End Formatted.

(** ** How a request ends *)

(** [imagesResp.data || {}] *)
Definition catalog_of (data : option Images) : Images :=
  match data with Some d => d | None => no_images end.

(** The payload built at lines 172-180 from the selected entity and the
    three groupings. *)
Definition payload_of (query : string) (r : SearchResult)
  (gb gp gl : Js.object) : Payload :=
  {| query := query;
     detected :=
       {| detected_media_type := media_type r;
          detected_id := id r;
          detected_title := title_of r |};
     backdrops := gb;
     posters := gp;
     logos := gl;
     Http.skipped := skipped_list gb gp gl |}.

(** The paths through the handler, each with the condition that selects
    it and the response and calls it ends with. *)
Inductive Behaviour (env : Env) (up : Upstream) (req : Request)
  : Response * list Call -> Prop :=
| NoCredential :
    Js.truthy (credential env) = false ->
    Behaviour env up req (missing_key_response, [])
| NoQuery :
    Js.truthy (credential env) = true ->
    Js.truthy (trimmed_query req) = false ->
    Behaviour env up req (missing_query_response, [])
| SearchFails (e : Js.error) :
    Js.truthy (credential env) = true ->
    Js.truthy (trimmed_query req) = true ->
    search_multi up (credential env) (trimmed_query req) = Js.Thrown e ->
    Behaviour env up req
      (failure_response e,
       [SearchMulti (credential env) (trimmed_query req)])
| NothingFound (data : option MultiData) :
    Js.truthy (credential env) = true ->
    Js.truthy (trimmed_query req) = true ->
    search_multi up (credential env) (trimmed_query req) = Js.Ok data ->
    results_of data = [] ->
    Behaviour env up req
      (not_found_response,
       [SearchMulti (credential env) (trimmed_query req)])
| WrongType (data : option MultiData) (r : SearchResult) :
    Js.truthy (credential env) = true ->
    Js.truthy (trimmed_query req) = true ->
    search_multi up (credential env) (trimmed_query req) = Js.Ok data ->
    first (results_of data) = Some r ->
    is_movie_or_tv r = false ->
    Behaviour env up req
      (ambiguous_response,
       [SearchMulti (credential env) (trimmed_query req)])
| ImagesFail (data : option MultiData) (r : SearchResult) (e : Js.error) :
    Js.truthy (credential env) = true ->
    Js.truthy (trimmed_query req) = true ->
    search_multi up (credential env) (trimmed_query req) = Js.Ok data ->
    first (results_of data) = Some r ->
    is_movie_or_tv r = true ->
    images_of up (media_type r) (id r) (credential env) language_filter =
      Js.Thrown e ->
    Behaviour env up req
      (failure_response e,
       [SearchMulti (credential env) (trimmed_query req);
        GetImages (media_type r) (id r) (credential env) language_filter])
| LogosFail (data : option MultiData) (r : SearchResult)
    (reply : option Images) (e : Js.error) :
    Js.truthy (credential env) = true ->
    Js.truthy (trimmed_query req) = true ->
    search_multi up (credential env) (trimmed_query req) = Js.Ok data ->
    first (results_of data) = Some r ->
    is_movie_or_tv r = true ->
    images_of up (media_type r) (id r) (credential env) language_filter =
      Js.Ok reply ->
    groupedLogos (catalog_of reply) = Js.Thrown e ->
    Behaviour env up req
      (failure_response e,
       [SearchMulti (credential env) (trimmed_query req);
        GetImages (media_type r) (id r) (credential env) language_filter])
| Succeeds (data : option MultiData) (r : SearchResult)
    (reply : option Images) (gl : Js.object) :
    Js.truthy (credential env) = true ->
    Js.truthy (trimmed_query req) = true ->
    search_multi up (credential env) (trimmed_query req) = Js.Ok data ->
    first (results_of data) = Some r ->
    is_movie_or_tv r = true ->
    images_of up (media_type r) (id r) (credential env) language_filter =
      Js.Ok reply ->
    groupedLogos (catalog_of reply) = Js.Ok gl ->
    Behaviour env up req
      (json (Success
         (payload_of (trimmed_query req) r
            (buckets ["en"; "hi"; "null"] has_key
               (or_empty (Tmdb.backdrops (catalog_of reply))))
            (buckets posterLangs has_code
               (or_empty (Tmdb.posters (catalog_of reply))))
            gl)),
       [SearchMulti (credential env) (trimmed_query req);
        GetImages (media_type r) (id r) (credential env) language_filter]).

(** ** Further sample inputs *)

Module Faulty.

(** The search fails before any reply. *)
Definition down : Upstream :=
  {| search_multi := fun _ _ => Js.Thrown (Js.AxiosError None "Network Error");
     images_of := fun _ _ _ _ => Js.Ok None |}.

(** The search answers [hits]; the image request is refused with a body. *)
Definition refusing (hits : list SearchResult) : Upstream :=
  {| search_multi := fun _ _ => Js.Ok (Some {| results := Some hits |});
     images_of := fun _ _ _ _ =>
       Js.Thrown
         (Js.AxiosError (Some "resource not found")
            "Request failed with status code 404") |}.

(** The search answers [hits]; the image reply has no body. *)
Definition bare (hits : list SearchResult) : Upstream :=
  {| search_multi := fun _ _ => Js.Ok (Some {| results := Some hits |});
     images_of := fun _ _ _ _ => Js.Ok None |}.


Definition more_backdrops : list ImageAsset :=
  [Sample.asset "/b4.jpg" (Some "hi"); Sample.asset "/b5.jpg" (Some "en")].

(** Upper case of the letters a to z, other bytes unchanged. *)
Fixpoint ascii_upper (s : string) : string :=
  match s with
  | EmptyString => EmptyString
  | String c rest =>
      let n := N_of_ascii c in
      String (if ((97 <=? n) && (n <=? 122))%N then ascii_of_N (n - 32) else c)
        (ascii_upper rest)
  end.

End Faulty.

(** ** Lists and objects *)

Section ListFacts.

Lemma includes_In (l : list string) (x : string) :
  Js.includes l x = true <-> In x l.
Proof.
  unfold Js.includes. rewrite existsb_exists. split.
  - intros (y & Hy & E). apply String.eqb_eq in E. now subst.
  - intro H. exists x. split; [assumption | apply String.eqb_refl].
Qed.

Lemma includes_not_In (l : list string) (x : string) :
  Js.includes l x = false <-> ~ In x l.
Proof.
  rewrite <- includes_In. destruct (Js.includes l x); split; congruence.
Qed.

Lemma first_seen_In (l : list string) (k : string) :
  In k (first_seen l) <-> In k l.
Proof.
  induction l as [|x l IH]; simpl; [tauto|].
  rewrite filter_In, IH, negb_true_iff, String.eqb_neq.
  destruct (String.eqb_spec x k) as [E|N].
  - split; intro; now left.
  - split; intros [H|H]; try tauto. right. split; [assumption|congruence].
Qed.

Lemma first_seen_NoDup (l : list string) : NoDup (first_seen l).
Proof.
  induction l as [|x l IH]; simpl; constructor.
  - rewrite filter_In, String.eqb_refl. simpl. intros [_ H]. discriminate.
  - now apply NoDup_filter.
Qed.

Lemma filter_all_true {A} (f : A -> bool) (l : list A) :
  (forall x, In x l -> f x = true) -> filter f l = l.
Proof.
  induction l as [|x l IH]; simpl; intro H; [reflexivity|].
  rewrite H by now left. f_equal. apply IH. intros; apply H; now right.
Qed.

Lemma filter_all_false {A} (f : A -> bool) (l : list A) :
  (forall x, In x l -> f x = false) -> filter f l = [].
Proof.
  induction l as [|x l IH]; simpl; intro H; [reflexivity|].
  rewrite H by now left. apply IH. intros; apply H; now right.
Qed.

(** Appending one key: a key already met changes nothing, a new key comes
    last. *)
Lemma first_seen_snoc (l : list string) (k : string) :
  first_seen (l ++ [k]) =
  if Js.includes l k then first_seen l else first_seen l ++ [k].
Proof.
  induction l as [|x l IH].
  - reflexivity.
  - cbn [app first_seen]. rewrite IH.
    unfold Js.includes in *. cbn [existsb].
    destruct (String.eqb_spec k x) as [->|N]; cbn [orb].
    + destruct (existsb (String.eqb x) l); [reflexivity|].
      rewrite filter_app. cbn [filter]. rewrite String.eqb_refl.
      cbn [negb]. now rewrite app_nil_r.
    + destruct (existsb (String.eqb k) l); [reflexivity|].
      rewrite filter_app. cbn [filter].
      apply String.eqb_neq in N. rewrite N. reflexivity.
Qed.

End ListFacts.

(** ** Buckets under [push] *)

Section Buckets.

Variable sel : string -> ImageAsset -> bool.

Lemma keys_buckets (keys : list string) (assets : list ImageAsset) :
  Js.keys (buckets keys sel assets) = keys.
Proof.
  unfold Js.keys, buckets. rewrite map_map. simpl. apply map_id.
Qed.

Lemma own_buckets (keys : list string) (assets : list ImageAsset)
  (k : string) :
  Js.own (buckets keys sel assets) k =
  if Js.includes keys k then Some (asFull (filter (sel k) assets)) else None.
Proof.
  induction keys as [|x keys IH]; [reflexivity|].
  unfold Js.includes in *. cbn [buckets map Js.own existsb].
  rewrite (String.eqb_sym k x).
  destruct (String.eqb_spec x k) as [->|N]; [reflexivity|].
  exact IH.
Qed.

Lemma buckets_nil (keys : list string) :
  buckets keys sel [] = map (fun l => (l, [])) keys.
Proof. reflexivity. Qed.

(** An asset that no key selects leaves every bucket as it is. *)
Lemma buckets_skip (keys : list string) (assets : list ImageAsset)
  (a : ImageAsset) :
  (forall k, In k keys -> sel k a = false) ->
  buckets keys sel (assets ++ [a]) = buckets keys sel assets.
Proof.
  intro H. unfold buckets. apply map_ext_in. intros k Hk.
  rewrite filter_app. cbn [filter]. rewrite (H k Hk).
  now rewrite app_nil_r.
Qed.

(** An asset selected by [k] alone goes to the end of the bucket of [k]. *)
Lemma push_own_buckets (keys : list string) (assets : list ImageAsset)
  (a : ImageAsset) (k : string) :
  NoDup keys ->
  (forall k', In k' keys -> sel k' a = (k' =? k)%string) ->
  Js.push_own (buckets keys sel assets) k (IMG_URL ++ file_path a)%string =
  buckets keys sel (assets ++ [a]).
Proof.
  induction keys as [|x keys IH]; intros ND H; [reflexivity|].
  inversion ND as [|? ? Hx ND']; subst.
  cbn [buckets map Js.push_own].
  assert (Hx' : sel x a = (x =? k)%string) by (apply H; now left).
  rewrite filter_app. cbn [filter]. rewrite Hx'.
  destruct (String.eqb_spec x k) as [->|N].
  - f_equal.
    + unfold asFull. now rewrite map_app.
    + symmetry. apply buckets_skip. intros k' Hk'.
    rewrite H by now right. apply String.eqb_neq. congruence.
  - rewrite app_nil_r. f_equal. apply IH; [assumption|].
    intros; apply H; now right.
Qed.

Lemma push_buckets (site : string) (keys : list string)
  (assets : list ImageAsset) (a : ImageAsset) (k : string) :
  NoDup keys ->
  In k keys ->
  (forall k', In k' keys -> sel k' a = (k' =? k)%string) ->
  Js.push site (buckets keys sel assets) k (IMG_URL ++ file_path a)%string =
  Js.Ok (buckets keys sel (assets ++ [a])).
Proof.
  intros ND Hk H. unfold Js.push, Js.get. rewrite own_buckets.
  apply includes_In in Hk. rewrite Hk.
  now rewrite push_own_buckets.
Qed.

(** A loop whose body keeps the buckets in step with the assets read so
    far ends with the buckets of all assets. *)
Lemma for_each_buckets (body : Js.object -> ImageAsset -> Js.result Js.object)
  (keys : list string) :
  (forall seen a,
      body (buckets keys sel seen) a = Js.Ok (buckets keys sel (seen ++ [a]))) ->
  forall assets seen,
    Js.for_each body (buckets keys sel seen) assets =
    Js.Ok (buckets keys sel (seen ++ assets)).
Proof.
  intros Hbody assets. induction assets as [|a assets IH]; intro seen.
  - now rewrite app_nil_r.
  - cbn [Js.for_each]. rewrite Hbody, IH, <- app_assoc. reflexivity.
Qed.

End Buckets.

(** ** The three loops *)

Lemma backdrop_test (b : ImageAsset) :
  includes_code backdropLangs (iso_639_1 b) || (lang_key b =? "null")%string =
  Js.includes ["en"; "hi"; "null"] (lang_key b).
Proof.
  unfold lang_key, Js.includes. destruct (iso_639_1 b) as [c|]; [|reflexivity].
  cbn. now rewrite !orb_false_r, orb_assoc.
Qed.

Lemma NoDup_backdrop_keys : NoDup ["en"; "hi"; "null"].
Proof.
  repeat constructor; cbn; intuition discriminate.
Qed.

Lemma NoDup_posterLangs : NoDup posterLangs.
Proof.
  unfold posterLangs. repeat constructor; cbn; intuition discriminate.
Qed.

Lemma backdrop_body_buckets (seen : list ImageAsset) (b : ImageAsset) :
  backdrop_body (buckets ["en"; "hi"; "null"] has_key seen) b =
  Js.Ok (buckets ["en"; "hi"; "null"] has_key (seen ++ [b])).
Proof.
  unfold backdrop_body. rewrite backdrop_test.
  destruct (Js.includes _ (lang_key b)) eqn:E.
  - apply push_buckets.
    + exact NoDup_backdrop_keys.
    + now apply includes_In.
    + intros k' _. unfold has_key. apply String.eqb_sym.
  - rewrite buckets_skip; [reflexivity|].
    intros k Hk. unfold has_key. apply String.eqb_neq. intro Heq. subst k.
    apply includes_not_In in E. contradiction.
Qed.

Lemma poster_body_buckets (seen : list ImageAsset) (p : ImageAsset) :
  poster_body (buckets posterLangs has_code seen) p =
  Js.Ok (buckets posterLangs has_code (seen ++ [p])).
Proof.
  unfold poster_body.
  destruct (iso_639_1 p) as [lang|] eqn:Hiso.
  - destruct (Js.includes posterLangs lang) eqn:E.
    + apply push_buckets.
      * exact NoDup_posterLangs.
      * now apply includes_In.
      * intros k' _. unfold has_code. rewrite Hiso. apply String.eqb_sym.
    + rewrite buckets_skip; [reflexivity|].
      intros k Hk. unfold has_code. rewrite Hiso.
      apply String.eqb_neq. intros ->.
      apply includes_not_In in E. contradiction.
  - rewrite buckets_skip; [reflexivity|].
    intros k _. unfold has_code. now rewrite Hiso.
Qed.

Lemma includes_first_seen (l : list string) (k : string) :
  Js.includes (first_seen l) k = Js.includes l k.
Proof.
  apply eq_true_iff_eq. rewrite !includes_In. apply first_seen_In.
Qed.

Lemma own_app_fresh (o o2 : Js.object) (k : string) :
  Js.own o k = None -> Js.own (o ++ o2) k = Js.own o2 k.
Proof.
  induction o as [|[k' arr] o IH]; cbn; [reflexivity|].
  destruct (k' =? k)%string; [discriminate | exact IH].
Qed.

Lemma push_own_app_fresh (o o2 : Js.object) (k u : string) :
  Js.own o k = None ->
  Js.push_own (o ++ o2) k u = o ++ Js.push_own o2 k u.
Proof.
  induction o as [|[k' arr] o IH]; cbn; [reflexivity|].
  destruct (k' =? k)%string; [discriminate|].
  intro H. now rewrite IH.
Qed.

(** The body of the logo loop on a key that names no built-in: the asset
    joins the bucket of its key, which is created last if it is new. *)
Lemma logo_body_buckets (seen : list ImageAsset) (l : ImageAsset) :
  Js.inherited (lang_key l) = false ->
  logo_body (buckets (first_seen (map lang_key seen)) has_key seen) l =
  Js.Ok (buckets (first_seen (map lang_key (seen ++ [l]))) has_key
           (seen ++ [l])).
Proof.
  intro Hinh. unfold logo_body, Js.get at 1.
  rewrite own_buckets, map_app. cbn [map].
  rewrite first_seen_snoc, includes_first_seen.
  destruct (Js.includes (map lang_key seen) (lang_key l)) eqn:E.
  - cbn [Js.truthy_property]. apply push_buckets.
    + apply first_seen_NoDup.
    + apply first_seen_In. now apply includes_In.
    + intros k' _. unfold has_key. apply String.eqb_sym.
  - rewrite Hinh. cbn [Js.truthy_property].
    assert (Hfresh :
      Js.own (buckets (first_seen (map lang_key seen)) has_key seen)
        (lang_key l) = None).
    { now rewrite own_buckets, includes_first_seen, E. }
    unfold Js.push, Js.get, Js.define.
    rewrite own_app_fresh by exact Hfresh. cbn [Js.own].
    rewrite String.eqb_refl.
    rewrite push_own_app_fresh by exact Hfresh. cbn [Js.push_own].
    rewrite String.eqb_refl. f_equal.
    unfold buckets at 2. rewrite map_app. cbn [map]. f_equal.
    + symmetry. apply buckets_skip. intros k Hk. unfold has_key.
      apply String.eqb_neq. intro Heq. subst k.
      apply includes_not_In in E. apply E. now apply first_seen_In.
    + rewrite filter_app. cbn [filter]. unfold has_key at 2.
      rewrite String.eqb_refl.
      rewrite filter_all_false; [reflexivity|].
      intros x Hx. unfold has_key. apply String.eqb_neq. intro Heq.
      apply includes_not_In in E. apply E. rewrite <- Heq.
      now apply in_map.
Qed.

Lemma logo_loop_buckets (assets seen : list ImageAsset) :
  (forall l, In l assets -> Js.inherited (lang_key l) = false) ->
  Js.for_each logo_body
    (buckets (first_seen (map lang_key seen)) has_key seen) assets =
  Js.Ok (buckets (first_seen (map lang_key (seen ++ assets))) has_key
           (seen ++ assets)).
Proof.
  revert seen. induction assets as [|l assets IH]; intros seen H.
  - now rewrite app_nil_r.
  - cbn [Js.for_each]. rewrite logo_body_buckets by (apply H; now left).
    rewrite IH by (intros; apply H; now right).
    now rewrite <- app_assoc.
Qed.

(** ** Invariants of a loop that may throw *)

Lemma for_each_invariant {A S : Type} (body : S -> A -> Js.result S)
  (I : list A -> S -> Prop) :
  (forall seen s a s',
      I seen s -> body s a = Js.Ok s' -> I (seen ++ [a]) s') ->
  forall arr seen s s',
    I seen s -> Js.for_each body s arr = Js.Ok s' -> I (seen ++ arr) s'.
Proof.
  intros Hstep arr. induction arr as [|a arr IH]; intros seen s s' Hs Hrun.
  - cbn in Hrun. injection Hrun as <-. now rewrite app_nil_r.
  - cbn in Hrun. destruct (body s a) as [s1|e] eqn:Hb; [|discriminate].
    replace (seen ++ a :: arr) with ((seen ++ [a]) ++ arr)
      by now rewrite <- app_assoc.
    eapply IH; [|exact Hrun]. eapply Hstep; eassumption.
Qed.

Lemma push_Ok (site : string) (o o' : Js.object) (k u : string) :
  Js.push site o k u = Js.Ok o' ->
  o' = Js.push_own o k u /\ exists arr, Js.own o k = Some arr.
Proof.
  unfold Js.push, Js.get. destruct (Js.own o k) as [arr|].
  - intro H. injection H as <-. eauto.
  - destruct (Js.inherited k); discriminate.
Qed.

Lemma In_push_own (o : Js.object) (k u k' : string) (urls : list string) :
  In (k', urls) (Js.push_own o k u) ->
  In (k', urls) o \/
  (k' = k /\ exists old, In (k, old) o /\ urls = old ++ [u]).
Proof.
  induction o as [|[x arr] o IH]; cbn; [tauto|].
  destruct (String.eqb_spec x k) as [->|N]; cbn.
  - intros [H|H]; [|tauto]. injection H as <- <-. right. eauto.
  - intros [H|H]; [tauto|]. destruct (IH H) as [H'|(-> & old & Ho & ->)].
    + tauto.
    + right. split; [reflexivity|]. exists old. tauto.
Qed.

Lemma total_push_own (o : Js.object) (k u : string) (arr : list string) :
  Js.own o k = Some arr -> total (Js.push_own o k u) = S (total o).
Proof.
  unfold total. induction o as [|[x a] o IH]; cbn; [discriminate|].
  destruct (x =? k)%string; cbn; intro H.
  - rewrite !length_app. cbn. lia.
  - rewrite !length_app, (IH H). lia.
Qed.

Lemma total_define (o : Js.object) (k : string) :
  total (Js.define o k) = total o.
Proof.
  unfold total, Js.define. rewrite map_app, concat_app, length_app.
  cbn. lia.
Qed.

(** Every asset the logo loop reads adds one URL. *)
Lemma logo_body_total (o o' : Js.object) (l : ImageAsset) :
  logo_body o l = Js.Ok o' -> total o' = S (total o).
Proof.
  unfold logo_body. intro H. apply push_Ok in H as (-> & arr & Harr).
  rewrite (total_push_own _ _ _ _ Harr).
  destruct (Js.truthy_property _); [reflexivity|].
  now rewrite total_define.
Qed.

Lemma groupedBackdrops_buckets (images : Images) :
  groupedBackdrops images =
  Js.Ok (buckets ["en"; "hi"; "null"] has_key
           (or_empty (Tmdb.backdrops images))).
Proof.
  unfold groupedBackdrops.
  apply (for_each_buckets has_key backdrop_body _ backdrop_body_buckets
           (or_empty (Tmdb.backdrops images)) []).
Qed.

Lemma groupedPosters_buckets (images : Images) :
  groupedPosters images =
  Js.Ok (buckets posterLangs has_code (or_empty (Tmdb.posters images))).
Proof.
  unfold groupedPosters. rewrite <- (buckets_nil has_code).
  apply (for_each_buckets has_code poster_body _ poster_body_buckets
           (or_empty (Tmdb.posters images)) []).
Qed.

(** *** Where the URLs come from *)

Lemma sourced_more (seen : list ImageAsset) (a : ImageAsset)
  (o : Js.object) :
  sourced seen o -> sourced (seen ++ [a]) o.
Proof.
  intros H k urls u Hk Hu. destruct (H k urls u Hk Hu) as (x & Hx & ->).
  exists x. split; [|reflexivity]. apply in_or_app. now left.
Qed.

Lemma sourced_define (seen : list ImageAsset) (o : Js.object) (k : string) :
  sourced seen o -> sourced seen (Js.define o k).
Proof.
  intros H k' urls u Hk Hu. unfold Js.define in Hk.
  apply in_app_or in Hk as [Hk|[Hk|[]]].
  - exact (H k' urls u Hk Hu).
  - injection Hk as <- <-. destruct Hu.
Qed.

Lemma sourced_push (site : string) (seen : list ImageAsset) (a : ImageAsset)
  (o o' : Js.object) (k : string) :
  sourced seen o ->
  Js.push site o k (IMG_URL ++ file_path a)%string = Js.Ok o' ->
  sourced (seen ++ [a]) o'.
Proof.
  intros H Hp. apply push_Ok in Hp as (-> & _).
  intros k' urls u Hk Hu.
  apply In_push_own in Hk as [Hk|(-> & old & Hold & ->)].
  - now apply (sourced_more seen a o H k' urls u).
  - apply in_app_or in Hu as [Hu|[<-|[]]].
    + now apply (sourced_more seen a o H k old u).
    + exists a. split; [|reflexivity]. apply in_or_app. right. now left.
Qed.

Lemma backdrop_body_sourced (seen : list ImageAsset) (o : Js.object)
  (b : ImageAsset) (o' : Js.object) :
  sourced seen o -> backdrop_body o b = Js.Ok o' -> sourced (seen ++ [b]) o'.
Proof.
  unfold backdrop_body. intros H Hb.
  destruct (_ || _).
  - eapply sourced_push; eassumption.
  - injection Hb as <-. now apply sourced_more.
Qed.

Lemma poster_body_sourced (seen : list ImageAsset) (o : Js.object)
  (p : ImageAsset) (o' : Js.object) :
  sourced seen o -> poster_body o p = Js.Ok o' -> sourced (seen ++ [p]) o'.
Proof.
  unfold poster_body. intros H Hb.
  destruct (iso_639_1 p) as [lang|].
  - destruct (Js.includes posterLangs lang).
    + eapply sourced_push; eassumption.
    + injection Hb as <-. now apply sourced_more.
  - injection Hb as <-. now apply sourced_more.
Qed.

Lemma logo_body_sourced (seen : list ImageAsset) (o : Js.object)
  (l : ImageAsset) (o' : Js.object) :
  sourced seen o -> logo_body o l = Js.Ok o' -> sourced (seen ++ [l]) o'.
Proof.
  unfold logo_body. intros H Hb.
  eapply sourced_push; [|exact Hb].
  destruct (Js.truthy_property _); [exact H | now apply sourced_define].
Qed.

Lemma sourced_empty_buckets (keys : list string) :
  sourced [] (map (fun l => (l, [])) keys).
Proof.
  intros k urls u Hk Hu. apply in_map_iff in Hk as (x & Hx & _).
  injection Hx as <- <-. destruct Hu.
Qed.

(** ** Grouping theorems *)

(** X20. When no logo's language key is the name of a built-in property of
    [Object.prototype], the logos object is produced; its keys are the
    distinct language keys of the logos,
    "null" standing for an absent code, in first-seen order; the bucket of
    each key holds, in upstream order, the prefixed paths of all logos with
    that key; and the buckets together hold one URL per logo. *)
Theorem logos_grouped_by_every_key (images : Images) :
  (forall l, In l (or_empty (Tmdb.logos images)) ->
     Js.inherited (lang_key l) = false) ->
  exists gl,
    groupedLogos images = Js.Ok gl
    /\ Js.keys gl = first_seen (map lang_key (or_empty (Tmdb.logos images)))
    /\ NoDup (Js.keys gl)
    /\ (forall k, In k (Js.keys gl) <->
          exists l, In l (or_empty (Tmdb.logos images)) /\ lang_key l = k)
    /\ (forall k, In k (Js.keys gl) ->
          Js.own gl k =
          Some (map (fun l => (IMG_URL ++ file_path l)%string)
                  (filter (fun l => (lang_key l =? k)%string)
                     (or_empty (Tmdb.logos images)))))
    /\ total gl = length (or_empty (Tmdb.logos images)).
Proof.
  intro Hnames. set (assets := or_empty (Tmdb.logos images)) in *.
  assert (Hrun : groupedLogos images =
                 Js.Ok (buckets (first_seen (map lang_key assets)) has_key
                          assets)).
  { unfold groupedLogos. fold assets.
    exact (logo_loop_buckets assets [] Hnames). }
  eexists. split; [exact Hrun|]. rewrite keys_buckets.
  split; [reflexivity|]. split; [apply first_seen_NoDup|].
  split; [|split].
  - intro k. rewrite first_seen_In, in_map_iff.
    split; intros (l & H1 & H2); exists l; tauto.
  - intros k Hk. rewrite own_buckets.
    apply includes_In in Hk. now rewrite Hk.
  - unfold groupedLogos in Hrun. fold assets in Hrun.
    apply (for_each_invariant logo_body
             (fun seen o => total o = length seen)) with (seen := [])
      in Hrun; [exact Hrun| |reflexivity].
    intros seen s a s' Hs Hb. rewrite (logo_body_total _ _ _ Hb), Hs.
    rewrite length_app. cbn. lia.
Qed.

Lemma logos_grouped_by_every_key_witness :
  exists gl,
    groupedLogos Sample.catalog = Js.Ok gl
    /\ Js.keys gl = ["en"; "null"]
    /\ total gl = 3.
Proof.
  destruct (logos_grouped_by_every_key Sample.catalog)
    as (gl & Hrun & Hkeys & _ & _ & _ & Htotal).
  - intros l [<-|[<-|[<-|[]]]]; reflexivity.
  - exists gl. split; [exact Hrun|]. split; [exact Hkeys | exact Htotal].
Defined.

(** A language code that names a built-in of [Object.prototype] makes the
    logo loop throw; the handler answers 500. *)
Lemma logos_throw_on_builtin_name :
  groupedLogos Sample.odd_catalog =
  Js.Thrown (Js.TypeError "groupedLogos[lang].push is not a function").
Proof. reflexivity. Qed.


(** C9. Every URL in a bucket of the backdrops, posters or logos object is
    the image prefix followed by the file path of an asset of the matching
    upstream list: the prefix is there once, and nothing else is added. *)
Theorem emitted_urls_are_prefix_then_path (images : Images)
  (gb gp gl : Js.object) :
  groupedBackdrops images = Js.Ok gb ->
  groupedPosters images = Js.Ok gp ->
  groupedLogos images = Js.Ok gl ->
  (forall k urls u, In (k, urls) gb -> In u urls ->
     exists b, In b (or_empty (Tmdb.backdrops images))
               /\ u = ("https://image.tmdb.org/t/p/original" ++ file_path b)%string)
  /\ (forall k urls u, In (k, urls) gp -> In u urls ->
     exists p, In p (or_empty (Tmdb.posters images))
               /\ u = ("https://image.tmdb.org/t/p/original" ++ file_path p)%string)
  /\ (forall k urls u, In (k, urls) gl -> In u urls ->
     exists l, In l (or_empty (Tmdb.logos images))
               /\ u = ("https://image.tmdb.org/t/p/original" ++ file_path l)%string).
Proof.
  intros Hb Hp Hl. split; [|split].
  - apply (for_each_invariant backdrop_body sourced backdrop_body_sourced
             _ [] _ gb (sourced_empty_buckets ["en"; "hi"; "null"]) Hb).
  - apply (for_each_invariant poster_body sourced poster_body_sourced
             _ [] _ gp (sourced_empty_buckets posterLangs) Hp).
  - apply (for_each_invariant logo_body sourced logo_body_sourced
             _ [] _ gl (sourced_empty_buckets []) Hl).
Qed.

Lemma emitted_urls_are_prefix_then_path_witness :
  groupedLogos Sample.catalog =
  Js.Ok [("en", ["https://image.tmdb.org/t/p/original/l1.png";
                 "https://image.tmdb.org/t/p/original/l3.png"]);
         ("null", ["https://image.tmdb.org/t/p/original/l2.png"])]
  /\ (forall k urls u,
        In (k, urls)
          [("en", ["https://image.tmdb.org/t/p/original/l1.png";
                   "https://image.tmdb.org/t/p/original/l3.png"]);
           ("null", ["https://image.tmdb.org/t/p/original/l2.png"])] ->
        In u urls ->
        exists l, In l (or_empty (Tmdb.logos Sample.catalog))
                  /\ u = ("https://image.tmdb.org/t/p/original"
                          ++ file_path l)%string).
Proof.
  split; [reflexivity|].
  refine (proj2 (proj2 (emitted_urls_are_prefix_then_path Sample.catalog
    [("en", ["https://image.tmdb.org/t/p/original/b1.jpg"]); ("hi", []);
     ("null", ["https://image.tmdb.org/t/p/original/b3.jpg"])]
    [("en", []); ("hi", []);
     ("ta", ["https://image.tmdb.org/t/p/original/p1.jpg"]);
     ("te", []); ("ja", []); ("ko", [])]
    _ _ _ _))); reflexivity.
Defined.

(** ** The handler *)

Lemma truthy_false (s : string) : Js.truthy s = false <-> s = "".
Proof. destruct s; cbn; split; congruence. Qed.

Lemma or_else_empty (q : option string) :
  Js.or_else q "" = match q with Some s => s | None => "" end.
Proof. destruct q as [[|c s]|]; reflexivity. Qed.

(** Past both guards the handler runs the [try] block. *)
Lemma handle_images_proceeds (env : Env) (up : Upstream) (req : Request) :
  Js.truthy (credential env) = true ->
  Js.truthy (trimmed_query req) = true ->
  handle_images env up req =
  try_catch (resolve_and_group up (credential env) (trimmed_query req))
    failure_response.
Proof.
  intros Hk Hq. unfold handle_images. now rewrite Hk, Hq.
Qed.

(** [find] returns the first element that passes the test. *)
Lemma find_first_split {A} (f : A -> bool) (l : list A) :
  existsb f l = true ->
  exists pre r post,
    l = pre ++ r :: post
    /\ (forall x, In x pre -> f x = false)
    /\ f r = true
    /\ find f l = Some r.
Proof.
  induction l as [|x l IH]; cbn; [discriminate|].
  destruct (f x) eqn:Hx; cbn.
  - intros _. exists [], x, l. cbn. tauto.
  - intro H. destruct (IH H) as (pre & r & post & -> & Hpre & Hr & Hf).
    exists (x :: pre), r, post. cbn. repeat split; try assumption.
    intros y [<-|Hy]; [assumption | now apply Hpre].
Qed.

Lemma find_none_all {A} (f : A -> bool) (l : list A) :
  existsb f l = false -> find f l = None.
Proof.
  induction l as [|x l IH]; cbn; [reflexivity|].
  destruct (f x); cbn; [discriminate | exact IH].
Qed.

Lemma type_guard (r : SearchResult) :
  negb (media_type r =? "movie")%string && negb (media_type r =? "tv")%string =
  negb (is_movie_or_tv r).
Proof. unfold is_movie_or_tv. now rewrite negb_orb. Qed.

(** The [try] block once the search has answered and an entity of the
    right type is selected: one more call, for that entity. *)
Lemma resolve_selected (up : Upstream) (key query : string)
  (data : option MultiData) (r : SearchResult) :
  search_multi up key query = Js.Ok data ->
  first (results_of data) = Some r ->
  is_movie_or_tv r = true ->
  exists out,
    resolve_and_group up key query [] =
    (out, [SearchMulti key query;
           GetImages (media_type r) (id r) key language_filter])
    /\ (forall resp, out = Continue resp \/ out = Returned resp ->
        exists imgs gb gp gl,
          groupedBackdrops imgs = Js.Ok gb
          /\ groupedPosters imgs = Js.Ok gp
          /\ groupedLogos imgs = Js.Ok gl
          /\ resp =
             json (Success
               {| query := query;
                  detected :=
                    {| detected_media_type := media_type r;
                       detected_id := id r;
                       detected_title := title_of r |};
                  backdrops := gb;
                  posters := gp;
                  logos := gl;
                  Http.skipped := skipped_list gb gp gl |})).
Proof.
  intros Hs Hf Hr. unfold resolve_and_group, bind, axios_get, lift.
  rewrite Hs, Hf, type_guard, Hr. cbn [negb app].
  destruct (images_of up _ _ _ _) as [d|e].
  2:{ eexists. split; [reflexivity|]. intros resp [H|H]; discriminate. }
  set (imgs := match d with Some d0 => d0 | None => no_images end).
  destruct (groupedBackdrops imgs) as [gb|e] eqn:Hb.
  2:{ eexists. split; [reflexivity|]. intros resp [H|H]; discriminate. }
  destruct (groupedPosters imgs) as [gp|e] eqn:Hp.
  2:{ eexists. split; [reflexivity|]. intros resp [H|H]; discriminate. }
  destruct (groupedLogos imgs) as [gl|e] eqn:Hl.
  2:{ eexists. split; [reflexivity|]. intros resp [H|H]; discriminate. }
  eexists. split; [reflexivity|].
  intros resp [H|H]; [|discriminate]. injection H as <-.
  exists imgs, gb, gp, gl. tauto.
Qed.

Lemma resolve_search_fails (up : Upstream) (key query : string)
  (e : Js.error) :
  search_multi up key query = Js.Thrown e ->
  resolve_and_group up key query [] = (Raised e, [SearchMulti key query]).
Proof.
  intro Hs. unfold resolve_and_group, bind, axios_get, lift.
  now rewrite Hs.
Qed.

Lemma resolve_not_found (up : Upstream) (key query : string)
  (data : option MultiData) :
  search_multi up key query = Js.Ok data ->
  first (results_of data) = None ->
  resolve_and_group up key query [] =
  (Returned not_found_response, [SearchMulti key query]).
Proof.
  intros Hs Hf. unfold resolve_and_group, bind, axios_get, lift.
  now rewrite Hs, Hf.
Qed.

Lemma resolve_ambiguous (up : Upstream) (key query : string)
  (data : option MultiData) (r : SearchResult) :
  search_multi up key query = Js.Ok data ->
  first (results_of data) = Some r ->
  is_movie_or_tv r = false ->
  resolve_and_group up key query [] =
  (Returned ambiguous_response, [SearchMulti key query]).
Proof.
  intros Hs Hf Hr. unfold resolve_and_group, bind, axios_get, lift.
  now rewrite Hs, Hf, type_guard, Hr.
Qed.

(** A success body is built from the three groupings of one catalog. *)
Lemma success_payload (env : Env) (up : Upstream) (req : Request)
  (p : Payload) :
  body (fst (handle_images env up req)) = Success p ->
  exists imgs,
    groupedBackdrops imgs = Js.Ok (backdrops p)
    /\ groupedPosters imgs = Js.Ok (posters p)
    /\ groupedLogos imgs = Js.Ok (logos p)
    /\ Http.skipped p = skipped_list (backdrops p) (posters p) (logos p).
Proof.
  unfold handle_images.
  destruct (Js.truthy (credential env)); [|discriminate].
  destruct (Js.truthy (trimmed_query req)); [|discriminate].
  cbn [negb]. unfold try_catch.
  destruct (search_multi up (credential env) (trimmed_query req))
    as [data|e] eqn:Hs.
  2:{ rewrite (resolve_search_fails _ _ _ _ Hs). discriminate. }
  destruct (first (results_of data)) as [r|] eqn:Hf.
  2:{ rewrite (resolve_not_found _ _ _ _ Hs Hf). discriminate. }
  destruct (is_movie_or_tv r) eqn:Hr.
  2:{ rewrite (resolve_ambiguous _ _ _ _ _ Hs Hf Hr). discriminate. }
  destruct (resolve_selected _ _ _ _ _ Hs Hf Hr) as (out & -> & Hout).
  destruct out as [resp|resp|e]; [| |discriminate].
  - destruct (Hout resp (or_introl eq_refl))
      as (imgs & gb & gp & gl & Hb & Hp & Hl & ->).
    cbn. intro H. injection H as <-. exists imgs. cbn. tauto.
  - destruct (Hout resp (or_intror eq_refl))
      as (imgs & gb & gp & gl & Hb & Hp & Hl & ->).
    cbn. intro H. injection H as <-. exists imgs. cbn. tauto.
Qed.

(** ** Fixed groupings *)

(** C3. The backdrops object has the keys en, hi, null in this order and
    no other; the language key of an asset is "null" when it has no language
    code and its raw code otherwise; the bucket of each of the three keys
    holds, in upstream order, the prefixed paths of exactly the backdrops
    with that key, so a backdrop with any other key is dropped.  The
    backdrops object of a success body has these three keys. *)
Theorem backdrops_grouped_by_key :
  (forall images : Images,
   exists gb,
    groupedBackdrops images = Js.Ok gb
    /\ Js.keys gb = ["en"; "hi"; "null"]
    /\ (forall k, In k ["en"; "hi"; "null"] ->
          Js.own gb k =
          Some (map (fun b => (IMG_URL ++ file_path b)%string)
                  (filter (fun b => (lang_key b =? k)%string)
                     (or_empty (Tmdb.backdrops images)))))
    /\ (forall k, ~ In k ["en"; "hi"; "null"] -> Js.own gb k = None)
    /\ (forall b,
          lang_key b =
          match iso_639_1 b with None => "null" | Some code => code end))
  /\ (forall env up req p,
        body (fst (handle_images env up req)) = Success p ->
        Js.keys (backdrops p) = ["en"; "hi"; "null"]).
Proof.
  split.
  2:{ intros env up req p H.
      destruct (success_payload _ _ _ _ H) as (imgs & Hb & _).
      rewrite groupedBackdrops_buckets in Hb.
      assert (E : backdrops p =
                  buckets ["en"; "hi"; "null"] has_key
                    (or_empty (Tmdb.backdrops imgs))) by congruence.
      rewrite E. apply keys_buckets. }
  intro images.
  exists (buckets ["en"; "hi"; "null"] has_key
            (or_empty (Tmdb.backdrops images))).
  split; [|split; [|split; [|split]]].
  - apply groupedBackdrops_buckets.
  - apply keys_buckets.
  - intros k Hk. rewrite own_buckets.
    apply includes_In in Hk. now rewrite Hk.
  - intros k Hk. rewrite own_buckets.
    apply includes_not_In in Hk. now rewrite Hk.
  - reflexivity.
Qed.

Lemma backdrops_grouped_by_key_witness :
  Js.keys (backdrops Sample.payload) = ["en"; "hi"; "null"].
Proof.
  refine (proj2 backdrops_grouped_by_key Sample.env
            (Sample.upstream Sample.mixed_hits Sample.catalog) Sample.req
            Sample.payload _).
  reflexivity.
Defined.

(** C4. The posters object has exactly the six keys en, hi, ta, te, ja, ko,
    present from the start in this order; the bucket of each key holds, in
    upstream order, the prefixed paths of exactly the posters whose language
    code is that key; every other poster is dropped.  The posters object of
    a success body has these six keys. *)
Theorem posters_grouped_by_code :
  (forall images : Images,
   exists gp,
    groupedPosters images = Js.Ok gp
    /\ Js.keys gp = ["en"; "hi"; "ta"; "te"; "ja"; "ko"]
    /\ (forall k, In k ["en"; "hi"; "ta"; "te"; "ja"; "ko"] ->
          Js.own gp k =
          Some (map (fun p => (IMG_URL ++ file_path p)%string)
                  (filter (fun p =>
                             match iso_639_1 p with
                             | Some code => (code =? k)%string
                             | None => false
                             end)
                     (or_empty (Tmdb.posters images)))))
    /\ (forall k, ~ In k ["en"; "hi"; "ta"; "te"; "ja"; "ko"] ->
          Js.own gp k = None))
  /\ (forall env up req p,
        body (fst (handle_images env up req)) = Success p ->
        Js.keys (posters p) = ["en"; "hi"; "ta"; "te"; "ja"; "ko"]).
Proof.
  split.
  2:{ intros env up req p H.
      destruct (success_payload _ _ _ _ H) as (imgs & _ & Hp & _).
      rewrite groupedPosters_buckets in Hp.
      assert (E : posters p =
                  buckets posterLangs has_code
                    (or_empty (Tmdb.posters imgs))) by congruence.
      rewrite E. apply keys_buckets. }
  intro images.
  exists (buckets posterLangs has_code (or_empty (Tmdb.posters images))).
  split; [|split; [|split]].
  - apply groupedPosters_buckets.
  - apply keys_buckets.
  - intros k Hk. rewrite own_buckets.
    apply (includes_In posterLangs) in Hk. now rewrite Hk.
  - intros k Hk. rewrite own_buckets.
    apply (includes_not_In posterLangs) in Hk. now rewrite Hk.
Qed.

Lemma posters_grouped_by_code_witness :
  Js.keys (posters Sample.payload) = ["en"; "hi"; "ta"; "te"; "ja"; "ko"].
Proof.
  refine (proj2 posters_grouped_by_code Sample.env
            (Sample.upstream Sample.mixed_hits Sample.catalog) Sample.req
            Sample.payload _).
  reflexivity.
Defined.

(** ** Handler theorems *)

(** C1. When the search answers with a sequence that holds a movie or tv
    element, the handler selects the first such element in upstream order,
    whatever stands before it: the image request is made for its type and
    id, and a success body reports it as detected. *)
Theorem first_movie_or_tv_is_selected (env : Env) (up : Upstream)
  (req : Request) (data : option MultiData) :
  Js.truthy (credential env) = true ->
  Js.truthy (trimmed_query req) = true ->
  search_multi up (credential env) (trimmed_query req) = Js.Ok data ->
  existsb is_movie_or_tv (results_of data) = true ->
  exists pre r post,
    results_of data = pre ++ r :: post
    /\ (forall x, In x pre -> is_movie_or_tv x = false)
    /\ is_movie_or_tv r = true
    /\ first (results_of data) = Some r
    /\ snd (handle_images env up req) =
       [SearchMulti (credential env) (trimmed_query req);
        GetImages (media_type r) (id r) (credential env) language_filter]
    /\ (forall p, body (fst (handle_images env up req)) = Success p ->
          detected p =
          {| detected_media_type := media_type r;
             detected_id := id r;
             detected_title := title_of r |}).
Proof.
  intros Hk Hq Hs Hex.
  destruct (find_first_split _ _ Hex) as (pre & r & post & Hsplit & Hpre & Hr & Hfind).
  assert (Hf : first (results_of data) = Some r).
  { unfold first. now rewrite Hfind. }
  exists pre, r, post. repeat (split; [assumption|]).
  rewrite (handle_images_proceeds _ _ _ Hk Hq). unfold try_catch.
  destruct (resolve_selected _ _ _ _ _ Hs Hf Hr) as (out & -> & Hout).
  destruct out as [resp|resp|e]; cbn [fst snd]; (split; [reflexivity|]).
  - destruct (Hout resp (or_introl eq_refl)) as (? & ? & ? & ? & _ & _ & _ & ->).
    cbn. intros p H. now injection H as <-.
  - destruct (Hout resp (or_intror eq_refl)) as (? & ? & ? & ? & _ & _ & _ & ->).
    cbn. intros p H. now injection H as <-.
  - intros p H. discriminate.
Qed.

Lemma first_movie_or_tv_is_selected_witness :
  exists pre r post,
    Sample.mixed_hits = pre ++ r :: post
    /\ (forall x, In x pre -> is_movie_or_tv x = false)
    /\ is_movie_or_tv r = true
    /\ first Sample.mixed_hits = Some r
    /\ snd (handle_images Sample.env (Sample.upstream Sample.mixed_hits Sample.catalog)
              Sample.req) =
       [SearchMulti "k3y" "Marry My Husband";
        GetImages (media_type r) (id r) "k3y" language_filter]
    /\ (forall p,
          body (fst (handle_images Sample.env
                       (Sample.upstream Sample.mixed_hits Sample.catalog)
                       Sample.req)) = Success p ->
          detected p =
          {| detected_media_type := media_type r;
             detected_id := id r;
             detected_title := title_of r |}).
Proof.
  apply (first_movie_or_tv_is_selected Sample.env
           (Sample.upstream Sample.mixed_hits Sample.catalog) Sample.req
           (Some {| results := Some Sample.mixed_hits |}));
    reflexivity.
Defined.

(** C2. When the search answers with a non-empty sequence that holds no
    movie or tv element, the handler answers with the wrong-type rejection,
    which is not the not-found answer, and has called the search only: no
    image request is made. *)
Theorem other_types_only_is_ambiguous (env : Env) (up : Upstream)
  (req : Request) (data : option MultiData) :
  Js.truthy (credential env) = true ->
  Js.truthy (trimmed_query req) = true ->
  search_multi up (credential env) (trimmed_query req) = Js.Ok data ->
  results_of data <> [] ->
  existsb is_movie_or_tv (results_of data) = false ->
  handle_images env up req =
  (ambiguous_response,
   [SearchMulti (credential env) (trimmed_query req)])
  /\ ambiguous_response <> not_found_response
  /\ (forall kind i key langs,
        ~ In (GetImages kind i key langs) (snd (handle_images env up req))).
Proof.
  intros Hk Hq Hs Hne Hnone.
  destruct (results_of data) as [|r rest] eqn:Hres; [contradiction|].
  assert (Hf : first (results_of data) = Some r).
  { unfold first. rewrite Hres, (find_none_all _ _ Hnone). reflexivity. }
  assert (Hr : is_movie_or_tv r = false).
  { cbn in Hnone. now apply orb_false_elim in Hnone. }
  assert (Hrun : handle_images env up req =
                 (ambiguous_response,
                  [SearchMulti (credential env) (trimmed_query req)])).
  { rewrite (handle_images_proceeds _ _ _ Hk Hq). unfold try_catch.
    now rewrite (resolve_ambiguous _ _ _ _ _ Hs Hf Hr). }
  split; [exact Hrun|]. split; [discriminate|].
  intros kind i key langs. rewrite Hrun. cbn. intros [H|[]]. discriminate.
Qed.

Lemma other_types_only_is_ambiguous_witness :
  handle_images Sample.env (Sample.upstream Sample.people Sample.catalog) Sample.req =
  (ambiguous_response, [SearchMulti "k3y" "Marry My Husband"]).
Proof.
  apply (other_types_only_is_ambiguous Sample.env
           (Sample.upstream Sample.people Sample.catalog) Sample.req
           (Some {| results := Some Sample.people |}));
    try reflexivity.
  discriminate.
Defined.

(** C7. When the search answers with an empty sequence, the handler
    answers 404 "No result found" and the search is the only outbound call
    it has made. *)
Theorem empty_results_is_not_found (env : Env) (up : Upstream)
  (req : Request) (data : option MultiData) :
  Js.truthy (credential env) = true ->
  Js.truthy (trimmed_query req) = true ->
  search_multi up (credential env) (trimmed_query req) = Js.Ok data ->
  results_of data = [] ->
  handle_images env up req =
  (status_json 404 (Error "No result found"),
   [SearchMulti (credential env) (trimmed_query req)])
  /\ length (snd (handle_images env up req)) = 1.
Proof.
  intros Hk Hq Hs Hres.
  assert (Hf : first (results_of data) = None) by now rewrite Hres.
  rewrite (handle_images_proceeds _ _ _ Hk Hq). unfold try_catch.
  rewrite (resolve_not_found _ _ _ _ Hs Hf). split; reflexivity.
Qed.

Lemma empty_results_is_not_found_witness :
  handle_images Sample.env (Sample.upstream [] Sample.catalog) Sample.req =
  (status_json 404 (Error "No result found"),
   [SearchMulti "k3y" "Marry My Husband"]).
Proof.
  apply (empty_results_is_not_found Sample.env
           (Sample.upstream [] Sample.catalog) Sample.req
           (Some {| results := Some [] |}));
    reflexivity.
Defined.

(** C8, as it stands, fails: with the credential unset a request without
    a query is answered 500, not 400. *)
Lemma blank_query_without_credential_is_500 :
  query_param Sample.req_missing = None
  /\ status (fst (handle_images Sample.env_unset
                    (Sample.upstream [] Sample.catalog)
                    Sample.req_missing)) = 500%Z
  /\ status (fst (handle_images Sample.env_unset
                    (Sample.upstream [] Sample.catalog)
                    Sample.req_missing)) <> 400%Z.
Proof.
  split; [reflexivity|]. split; [reflexivity|]. discriminate.
Qed.

(** C8, amended. While the credential is set, a request whose query
    parameter is missing or trims to the empty string is answered 400
    "query param is required" and no outbound call is made. *)
Theorem blank_query_is_rejected (env : Env) (up : Upstream) (req : Request) :
  Js.truthy (credential env) = true ->
  (query_param req = None
   \/ exists s, query_param req = Some s /\ Js.trim s = "") ->
  handle_images env up req = (status_json 400 (Error "query param is required"), []).
Proof.
  intros Hk Hq. unfold handle_images. rewrite Hk. cbn [negb].
  assert (Hblank : trimmed_query req = "").
  { unfold trimmed_query. rewrite or_else_empty.
    destruct Hq as [->|(s & -> & Hs)]; [reflexivity | exact Hs]. }
  now rewrite Hblank.
Qed.

Lemma blank_query_is_rejected_witness :
  handle_images Sample.env (Sample.upstream Sample.mixed_hits Sample.catalog)
    Sample.req_blank =
  (status_json 400 (Error "query param is required"), []).
Proof.
  apply (blank_query_is_rejected Sample.env
           (Sample.upstream Sample.mixed_hits Sample.catalog)
           Sample.req_blank).
  - reflexivity.
  - right. exists "   ". split; reflexivity.
Defined.

(** C10. The credential is tested first: while it is unset (or empty) every
    request, also one without a query, is answered 500 with the
    configuration error and no outbound call; so a 400 answer is given only
    while the credential is set. *)
Theorem credential_checked_before_query (env : Env) (up : Upstream)
  (req : Request) :
  (Js.truthy (credential env) = false ->
   handle_images env up req =
   (status_json 500 (Error "TMDB_API_KEY missing in environment variables"),
    []))
  /\ (status (fst (handle_images env up req)) = 400%Z ->
      Js.truthy (credential env) = true).
Proof.
  split.
  - intro Hk. unfold handle_images. now rewrite Hk.
  - unfold handle_images. destruct (Js.truthy (credential env)); [reflexivity|].
    cbn. discriminate.
Qed.

Lemma credential_checked_before_query_witness :
  handle_images Sample.env_unset (Sample.upstream Sample.mixed_hits Sample.catalog)
    Sample.req_missing =
  (status_json 500 (Error "TMDB_API_KEY missing in environment variables"),
   []).
Proof.
  apply (proj1 (credential_checked_before_query Sample.env_unset
                  (Sample.upstream Sample.mixed_hits Sample.catalog)
                  Sample.req_missing)).
  reflexivity.
Defined.

(** ** The skipped list *)

Lemma length_at_zero (o : Js.object) (k : string) (arr : list string) :
  Js.own o k = Some arr ->
  (Nat.eqb (Js.length_at o k) 0 = true <-> Js.own o k = Some []).
Proof.
  intro H. unfold Js.length_at. rewrite H.
  destruct arr; cbn; split; congruence.
Qed.

Lemma posters_label_is_posters_entry (langs : list string) :
  is_posters_entry (posters_label langs) = true.
Proof. reflexivity. Qed.

(** C6, as it stands, fails for posters: with one English poster the
    posters entry is in the skipped list although the en bucket is not
    empty. *)
Lemma posters_entry_with_a_filled_bucket :
  exists p,
    fst (handle_images Sample.env
           (Sample.upstream Sample.mixed_hits Sample.one_poster)
           Sample.req) = json (Success p)
    /\ In "Posters (hi, ta, te, ja, ko)" (Http.skipped p)
    /\ Js.own (posters p) "en" =
       Some ["https://image.tmdb.org/t/p/original/p1.jpg"].
Proof.
  eexists. split; [reflexivity|]. split; [|reflexivity].
  cbn. right. left. reflexivity.
Qed.

(** C6, amended. In every success body: the backdrops entry is in the
    skipped list exactly when the en, hi and null buckets are all empty; the
    logos entry exactly when the logos object has no key; and a posters
    entry exactly when at least one of the six poster buckets is empty, in
    which case it is the one entry that lists the empty buckets. *)
Theorem skipped_entries (env : Env) (up : Upstream) (req : Request)
  (p : Payload) :
  body (fst (handle_images env up req)) = Success p ->
  (In "Backdrops (en/hi/null)" (Http.skipped p) <->
     Js.own (backdrops p) "en" = Some []
     /\ Js.own (backdrops p) "hi" = Some []
     /\ Js.own (backdrops p) "null" = Some [])
  /\ (In "Logos (All Languages)" (Http.skipped p) <->
        Js.keys (logos p) = [])
  /\ ((exists entry, In entry (Http.skipped p)
                     /\ is_posters_entry entry = true) <->
        exists l, In l posterLangs /\ Js.own (posters p) l = Some [])
  /\ (forall entry, In entry (Http.skipped p) ->
        is_posters_entry entry = true ->
        entry = posters_label (posterSectionsSkipped (posters p)))
  /\ (forall l, In l (posterSectionsSkipped (posters p)) <->
        In l posterLangs /\ Js.own (posters p) l = Some []).
Proof.
  intro H. destruct (success_payload _ _ _ _ H) as (imgs & Hb & Hp & Hl & ->).
  assert (Hb' : Js.Ok (buckets ["en"; "hi"; "null"] has_key
                         (or_empty (Tmdb.backdrops imgs))) =
                Js.Ok (backdrops p))
    by (rewrite <- Hb; symmetry; apply groupedBackdrops_buckets).
  assert (Hp' : Js.Ok (buckets posterLangs has_code
                         (or_empty (Tmdb.posters imgs))) =
                Js.Ok (posters p))
    by (rewrite <- Hp; symmetry; apply groupedPosters_buckets).
  clear Hb Hp.
  assert (Hb : buckets ["en"; "hi"; "null"] has_key
                 (or_empty (Tmdb.backdrops imgs)) = backdrops p)
    by congruence.
  assert (Hp : buckets posterLangs has_code
                 (or_empty (Tmdb.posters imgs)) = posters p)
    by congruence.
  clear Hb' Hp'.
  remember (backdrops p) as gb eqn:Egb. remember (posters p) as gp eqn:Egp.
  remember (logos p) as gl eqn:Egl. clear Egb Egp Egl Hl H.
  assert (Hzero_b : forall k, In k ["en"; "hi"; "null"] ->
            (Nat.eqb (Js.length_at gb k) 0 = true <-> Js.own gb k = Some [])).
  { intros k Hk. eapply length_at_zero. subst gb. rewrite own_buckets.
    apply includes_In in Hk. rewrite Hk. reflexivity. }
  assert (Hzero_p : forall k, In k posterLangs ->
            (Nat.eqb (Js.length_at gp k) 0 = true <-> Js.own gp k = Some [])).
  { intros k Hk. eapply length_at_zero. subst gp. rewrite own_buckets.
    apply includes_In in Hk. rewrite Hk. reflexivity. }
  assert (Hsk : forall l, In l (posterSectionsSkipped gp) <->
                  In l posterLangs /\ Js.own gp l = Some []).
  { intro l. unfold posterSectionsSkipped. rewrite filter_In.
    split; intros [Hin Hz]; (split; [exact Hin|]); now apply Hzero_p. }
  assert (Hentries : forall entry,
            In entry (skipped_list gb gp gl) ->
            (entry = backdrops_label
             /\ Nat.eqb (Js.length_at gb "en") 0
                && Nat.eqb (Js.length_at gb "hi") 0
                && Nat.eqb (Js.length_at gb "null") 0 = true)
            \/ (entry = posters_label (posterSectionsSkipped gp)
                /\ posterSectionsSkipped gp <> [])
            \/ (entry = logos_label
                /\ Nat.eqb (length (Js.keys gl)) 0 = true)).
  { intros entry. unfold skipped_list. rewrite !in_app_iff.
    intros [Hin|[Hin|Hin]].
    - left. destruct (_ && _); [|destruct Hin].
      destruct Hin as [<-|[]]. now split.
    - right. left. destruct (posterSectionsSkipped gp) as [|l0 ls];
        [destruct Hin|]. destruct Hin as [<-|[]]. split; [reflexivity|discriminate].
    - right. right. destruct (Nat.eqb _ 0); [|destruct Hin].
      destruct Hin as [<-|[]]. now split. }
  split; [|split; [|split; [|split]]].
  - split.
    + intro Hin. apply Hentries in Hin as [(_ & Hz)|[(E & _)|(E & _)]];
        try discriminate.
      apply andb_prop in Hz as (Hz & Hnull).
      apply andb_prop in Hz as (Hen & Hhi).
      repeat split; apply Hzero_b; cbn; tauto.
    + intros (Hen & Hhi & Hnull). unfold skipped_list.
      apply Hzero_b in Hen; [|cbn; tauto].
      apply Hzero_b in Hhi; [|cbn; tauto].
      apply Hzero_b in Hnull; [|cbn; tauto].
      rewrite Hen, Hhi, Hnull. cbn. now left.
  - split.
    + intro Hin. apply Hentries in Hin as [(E & _)|[(E & _)|(_ & Hz)]];
        try discriminate.
      apply Nat.eqb_eq in Hz. now apply length_zero_iff_nil.
    + intro Hz. unfold skipped_list. rewrite Hz. cbn [length Nat.eqb].
      rewrite !in_app_iff. right. right. now left.
  - split.
    + intros (entry & Hin & Hpe).
      apply Hentries in Hin as [(-> & _)|[(_ & Hne)|(-> & _)]];
        try discriminate.
      destruct (posterSectionsSkipped gp) as [|l ls] eqn:E;
        [contradiction|].
      exists l. apply Hsk. rewrite ?E. now left.
    + intros (l & Hl'). apply Hsk in Hl'.
      exists (posters_label (posterSectionsSkipped gp)).
      split; [|apply posters_label_is_posters_entry].
      unfold skipped_list. rewrite !in_app_iff. right. left.
      destruct (posterSectionsSkipped gp); [destruct Hl' | now left].
  - intros entry Hin Hpe.
    apply Hentries in Hin as [(-> & _)|[(-> & _)|(-> & _)]];
      try discriminate. reflexivity.
  - exact Hsk.
Qed.

Lemma skipped_entries_witness :
  (exists entry, In entry ["Posters (en, hi, te, ja, ko)"]
                 /\ is_posters_entry entry = true) <->
  (exists l, In l posterLangs
             /\ Js.own
                  [("en", []); ("hi", []);
                   ("ta", ["https://image.tmdb.org/t/p/original/p1.jpg"]);
                   ("te", []); ("ja", []); ("ko", [])] l = Some []).
Proof.
  refine (proj1 (proj2 (proj2
    (skipped_entries Sample.env
       (Sample.upstream Sample.mixed_hits Sample.catalog) Sample.req
       Sample.payload _)))).
  reflexivity.
Defined.

(** ** Every path through the handler *)

Lemma first_None (rs : list SearchResult) : first rs = None -> rs = [].
Proof.
  unfold first. destruct (find is_movie_or_tv rs); [discriminate|].
  destruct rs; [reflexivity | discriminate].
Qed.

Lemma find_In {A} (f : A -> bool) (l : list A) (x : A) :
  find f l = Some x -> In x l /\ f x = true.
Proof. apply find_some. Qed.

Lemma find_none_existsb {A} (f : A -> bool) (l : list A) :
  find f l = None -> existsb f l = false.
Proof.
  induction l as [|x l IH]; cbn; [reflexivity|].
  destruct (f x); [discriminate | exact IH].
Qed.

(** What [first] returns is an element; it is the head unless a movie or
    tv element exists. *)
Lemma first_Some (rs : list SearchResult) (r : SearchResult) :
  first rs = Some r ->
  In r rs
  /\ (is_movie_or_tv r = true /\ existsb is_movie_or_tv rs = true
      \/ is_movie_or_tv r = false /\ existsb is_movie_or_tv rs = false
         /\ exists rest, rs = r :: rest).
Proof.
  unfold first. destruct (find is_movie_or_tv rs) as [x|] eqn:Hfind.
  - intro H. injection H as <-. apply find_In in Hfind as (Hin & Hx).
    split; [exact Hin|]. left. split; [exact Hx|].
    apply existsb_exists. eauto.
  - apply find_none_existsb in Hfind. destruct rs as [|x rest]; cbn;
      [discriminate|].
    intro H. injection H as <-. split; [now left|]. right.
    split; [|split; [exact Hfind | eauto]].
    cbn in Hfind. now apply orb_false_elim in Hfind.
Qed.

(** The [try] block after the selection, spelled out. *)
Lemma resolve_selected_exact (up : Upstream) (key query : string)
  (data : option MultiData) (r : SearchResult) :
  search_multi up key query = Js.Ok data ->
  first (results_of data) = Some r ->
  is_movie_or_tv r = true ->
  resolve_and_group up key query [] =
  (match images_of up (media_type r) (id r) key language_filter with
   | Js.Thrown e => Raised e
   | Js.Ok reply =>
       match groupedLogos (catalog_of reply) with
       | Js.Thrown e => Raised e
       | Js.Ok gl =>
           Continue (json (Success
             (payload_of query r
                (buckets ["en"; "hi"; "null"] has_key
                   (or_empty (Tmdb.backdrops (catalog_of reply))))
                (buckets posterLangs has_code
                   (or_empty (Tmdb.posters (catalog_of reply))))
                gl)))
       end
   end,
   [SearchMulti key query;
    GetImages (media_type r) (id r) key language_filter]).
Proof.
  intros Hs Hf Hr. unfold resolve_and_group, bind, axios_get, lift.
  rewrite Hs, Hf, type_guard, Hr. cbn [negb app].
  destruct (images_of up _ _ _ _) as [reply|e]; [|reflexivity].
  change (match reply with Some d => d | None => no_images end)
    with (catalog_of reply).
  rewrite groupedBackdrops_buckets, groupedPosters_buckets.
  destruct (groupedLogos (catalog_of reply)); reflexivity.
Qed.

Lemma handle_images_behaviour (env : Env) (up : Upstream) (req : Request) :
  Behaviour env up req (handle_images env up req).
Proof.
  unfold handle_images.
  destruct (Js.truthy (credential env)) eqn:Hk; cbn [negb];
    [|now apply NoCredential].
  destruct (Js.truthy (trimmed_query req)) eqn:Hq; cbn [negb];
    [|now apply NoQuery].
  unfold try_catch.
  destruct (search_multi up (credential env) (trimmed_query req))
    as [data|e] eqn:Hs.
  2:{ rewrite (resolve_search_fails _ _ _ _ Hs). now apply SearchFails. }
  destruct (first (results_of data)) as [r|] eqn:Hf.
  2:{ rewrite (resolve_not_found _ _ _ _ Hs Hf).
      apply (NothingFound _ _ _ data); try assumption.
      now apply first_None. }
  destruct (is_movie_or_tv r) eqn:Hr.
  2:{ rewrite (resolve_ambiguous _ _ _ _ _ Hs Hf Hr).
      now apply (WrongType _ _ _ data r). }
  rewrite (resolve_selected_exact _ _ _ _ _ Hs Hf Hr).
  destruct (images_of up (media_type r) (id r) (credential env)
              language_filter) as [reply|e] eqn:Hi.
  2:{ now apply (ImagesFail _ _ _ data r e). }
  destruct (groupedLogos (catalog_of reply)) as [gl|e] eqn:Hl.
  - now apply (Succeeds _ _ _ data r reply gl).
  - now apply (LogosFail _ _ _ data r reply e).
Qed.

Ltac by_behaviour env up req :=
  let B := fresh "B" in
  pose proof (handle_images_behaviour env up req) as B;
  destruct B.

(** ** Failures of the upstream *)

(** X1. When the search call fails, the handler answers 500 "Error fetching
    data" with the details of the error, and the search is the only call it
    has made. *)
Theorem search_failure_is_reported (env : Env) (up : Upstream)
  (req : Request) (e : Js.error) :
  Js.truthy (credential env) = true ->
  Js.truthy (trimmed_query req) = true ->
  search_multi up (credential env) (trimmed_query req) = Js.Thrown e ->
  handle_images env up req =
  (status_json 500 (ErrorDetails "Error fetching data" (details_of e)),
   [SearchMulti (credential env) (trimmed_query req)]).
Proof.
  intros Hk Hq Hs. rewrite (handle_images_proceeds _ _ _ Hk Hq).
  unfold try_catch. now rewrite (resolve_search_fails _ _ _ _ Hs).
Qed.

Lemma search_failure_is_reported_witness :
  handle_images Sample.env Faulty.down Sample.req =
  (status_json 500 (ErrorDetails "Error fetching data" "Network Error"),
   [SearchMulti "k3y" "Marry My Husband"]).
Proof.
  apply (search_failure_is_reported Sample.env Faulty.down Sample.req
           (Js.AxiosError None "Network Error"));
    reflexivity.
Defined.

(** X2. When a movie or tv entity is selected and the image call fails, the
    handler answers 500 "Error fetching data" with the details of the
    error, after exactly the two calls; the details are the body of the
    upstream's answer when it has a non-empty one, the error message
    otherwise. *)
Theorem image_failure_is_reported (env : Env) (up : Upstream)
  (req : Request) (data : option MultiData) (r : SearchResult)
  (e : Js.error) :
  Js.truthy (credential env) = true ->
  Js.truthy (trimmed_query req) = true ->
  search_multi up (credential env) (trimmed_query req) = Js.Ok data ->
  first (results_of data) = Some r ->
  is_movie_or_tv r = true ->
  images_of up (media_type r) (id r) (credential env) language_filter =
    Js.Thrown e ->
  handle_images env up req =
  (status_json 500 (ErrorDetails "Error fetching data" (details_of e)),
   [SearchMulti (credential env) (trimmed_query req);
    GetImages (media_type r) (id r) (credential env)
      "en,hi,ta,te,ja,ko,null"])
  /\ (forall d m, e = Js.AxiosError (Some d) m -> d <> "" ->
        details_of e = d)
  /\ (forall m, e = Js.AxiosError None m \/ e = Js.AxiosError (Some "") m
                \/ e = Js.TypeError m ->
        details_of e = m).
Proof.
  intros Hk Hq Hs Hf Hr Hi. split; [|split].
  - rewrite (handle_images_proceeds _ _ _ Hk Hq). unfold try_catch.
    now rewrite (resolve_selected_exact _ _ _ _ _ Hs Hf Hr), Hi.
  - intros d m -> Hd. cbn. destruct d; [contradiction | reflexivity].
  - intros m [->|[->| ->]]; reflexivity.
Qed.

Lemma image_failure_is_reported_witness :
  handle_images Sample.env (Faulty.refusing Sample.mixed_hits) Sample.req =
  (status_json 500 (ErrorDetails "Error fetching data" "resource not found"),
   [SearchMulti "k3y" "Marry My Husband";
    GetImages "tv" 22 "k3y" "en,hi,ta,te,ja,ko,null"]).
Proof.
  apply (image_failure_is_reported Sample.env
           (Faulty.refusing Sample.mixed_hits) Sample.req
           (Some {| results := Some Sample.mixed_hits |})
           (Sample.hit 22 "tv" "B")
           (Js.AxiosError (Some "resource not found")
              "Request failed with status code 404"));
    reflexivity.
Defined.

(** ** Status, body and calls of every response *)

(** X3. Every response has status 200, 400, 404 or 500; the status is 200
    exactly when the body is a success payload; a body with details always
    comes with status 500 and the error text "Error fetching data". *)
Theorem status_codes (env : Env) (up : Upstream) (req : Request) :
  let resp := fst (handle_images env up req) in
  (status resp = 200 \/ status resp = 400 \/ status resp = 404
   \/ status resp = 500)%Z
  /\ (status resp = 200%Z <-> exists p, body resp = Success p)
  /\ (forall msg details, body resp = ErrorDetails msg details ->
        status resp = 500%Z /\ msg = "Error fetching data").
Proof.
  by_behaviour env up req; cbn; (split; [tauto|]);
    (split; [split; [try discriminate; eauto
                    | try (intros (p & Hp); discriminate); reflexivity]|]);
    intros msg details Hb; try discriminate;
    injection Hb as <- <-; now split.
Qed.

(** X4. The handler makes no call, or the search alone, or the search and
    then one image request.  The search carries the credential and the
    trimmed query.  An image request is for an element of the search
    results whose media type is movie or tv, and carries the credential and
    the fixed language filter. *)
Theorem call_discipline (env : Env) (up : Upstream) (req : Request) :
  let log := snd (handle_images env up req) in
  log = []
  \/ log = [SearchMulti (credential env) (trimmed_query req)]
  \/ exists data r,
       search_multi up (credential env) (trimmed_query req) = Js.Ok data
       /\ In r (results_of data)
       /\ (media_type r = "movie" \/ media_type r = "tv")
       /\ log = [SearchMulti (credential env) (trimmed_query req);
                 GetImages (media_type r) (id r) (credential env)
                   "en,hi,ta,te,ja,ko,null"].
Proof.
  assert (Hkind : forall r, is_movie_or_tv r = true ->
            media_type r = "movie" \/ media_type r = "tv").
  { intros r Hr. unfold is_movie_or_tv in Hr.
    apply orb_true_iff in Hr as [Hr|Hr]; apply String.eqb_eq in Hr; tauto. }
  by_behaviour env up req; cbn; try tauto; right; right; exists data, r;
    (split; [assumption|]);
    (split; [eapply first_Some; eassumption|]);
    (split; [now apply Hkind | reflexivity]).
Qed.

(** X5. A 400 response comes with no outbound call, a 404 response with the
    search call alone, and a 200 response with exactly two calls, the
    search first; no response comes with more than two calls. *)
Theorem calls_by_status (env : Env) (up : Upstream) (req : Request) :
  let resp := fst (handle_images env up req) in
  let log := snd (handle_images env up req) in
  (status resp = 400%Z -> log = [])
  /\ (status resp = 404%Z ->
      log = [SearchMulti (credential env) (trimmed_query req)])
  /\ (status resp = 200%Z ->
      exists kind i,
        log = [SearchMulti (credential env) (trimmed_query req);
               GetImages kind i (credential env) language_filter])
  /\ length log <= 2.
Proof.
  by_behaviour env up req; cbn;
    repeat split; try discriminate; try reflexivity; try lia;
    intros _; eauto.
Qed.

Lemma calls_by_status_witness :
  exists kind i,
    snd (handle_images Sample.env
           (Sample.upstream Sample.mixed_hits Sample.catalog) Sample.req) =
    [SearchMulti "k3y" "Marry My Husband";
     GetImages kind i "k3y" language_filter].
Proof.
  apply (proj1 (proj2 (proj2 (calls_by_status Sample.env
           (Sample.upstream Sample.mixed_hits Sample.catalog) Sample.req)))).
  reflexivity.
Defined.

Ltac same_reply :=
  repeat match goal with
  | H1 : ?x = Js.Ok ?a, H2 : ?x = Js.Ok ?b |- _ =>
      rewrite H1 in H2; injection H2 as <-
  | H1 : ?x = Js.Ok _, H2 : ?x = Js.Thrown _ |- _ =>
      rewrite H1 in H2; discriminate H2
  | H1 : ?x = Some ?a, H2 : ?x = Some ?b |- _ =>
      rewrite H1 in H2; injection H2 as <-
  | H1 : ?x = true, H2 : ?x = false |- _ =>
      rewrite H1 in H2; discriminate H2
  end.

(** X6. The handler answers 400 exactly when the credential is set and the
    query parameter is missing or trims to the empty string. *)
Theorem bad_request_iff (env : Env) (up : Upstream) (req : Request) :
  status (fst (handle_images env up req)) = 400%Z <->
  Js.truthy (credential env) = true
  /\ (query_param req = None
      \/ exists s, query_param req = Some s /\ Js.trim s = "").
Proof.
  assert (Hblank : Js.truthy (trimmed_query req) = false <->
            (query_param req = None
             \/ exists s, query_param req = Some s /\ Js.trim s = "")).
  { rewrite truthy_false. unfold trimmed_query. rewrite or_else_empty.
    destruct (query_param req) as [s|].
    - split; [intro H; right; eauto|].
      intros [H|(s' & H & Hs)]; [discriminate|]. now injection H as ->.
    - split; [now left | reflexivity]. }
  split.
  - by_behaviour env up req; cbn; try discriminate. intros _.
    split; [assumption | now apply Hblank].
  - intros (Hk & Hq). apply Hblank in Hq.
    by_behaviour env up req; same_reply. reflexivity.
Qed.

(** X7. The two 404 answers are told apart by the search results alone:
    "No result found" is given exactly when the search succeeds with no
    results (or with a body that has no results array), and the wrong-type
    rejection exactly when it succeeds with results none of which is a
    movie or tv. *)
Theorem not_found_and_ambiguous_iff (env : Env) (up : Upstream)
  (req : Request) :
  (fst (handle_images env up req) = not_found_response <->
     Js.truthy (credential env) = true
     /\ Js.truthy (trimmed_query req) = true
     /\ exists data,
          search_multi up (credential env) (trimmed_query req) = Js.Ok data
          /\ results_of data = [])
  /\ (fst (handle_images env up req) = ambiguous_response <->
     Js.truthy (credential env) = true
     /\ Js.truthy (trimmed_query req) = true
     /\ exists data,
          search_multi up (credential env) (trimmed_query req) = Js.Ok data
          /\ results_of data <> []
          /\ existsb is_movie_or_tv (results_of data) = false).
Proof.
  split; split.
  - by_behaviour env up req; cbn; try discriminate. intros _. eauto.
  - intros (Hk & Hq & data & Hs & Hres).
    by_behaviour env up req; same_reply; try reflexivity;
      match goal with
      | H : first (results_of _) = Some _ |- _ =>
          rewrite Hres in H; discriminate H
      end.
  - by_behaviour env up req; cbn; try discriminate. intros _.
    repeat (split; [assumption|]). exists data. split; [assumption|].
    match goal with
    | H : first _ = Some _ |- _ =>
        apply first_Some in H as (Hin & [(Ht & _)|(_ & Hnone & rest & Hrs)])
    end; [same_reply|].
    split; [rewrite Hrs; discriminate | exact Hnone].
  - intros (Hk & Hq & data & Hs & Hne & Hnone).
    by_behaviour env up req; same_reply; try reflexivity;
      try contradiction;
      match goal with
      | H : first (results_of _) = Some _ |- _ =>
          apply first_Some in H as (_ & [(_ & Hex)|(Hf & _)]);
          same_reply
      end.
Qed.

Lemma title_of_nonempty (r : SearchResult) : title_of r <> "".
Proof.
  unfold title_of, Js.or_else.
  destruct (title r) as [[|c t]|]; destruct (name r) as [[|c' n]|];
    discriminate.
Qed.

(** X8. In every success body the detected media type is "movie" or "tv",
    the detected type and id are those of one element of the search results,
    the title is not empty, and the query is the trimmed query parameter,
    which is not empty. *)
Theorem detected_entity_is_well_formed (env : Env) (up : Upstream)
  (req : Request) (p : Payload) :
  body (fst (handle_images env up req)) = Success p ->
  (detected_media_type (detected p) = "movie"
   \/ detected_media_type (detected p) = "tv")
  /\ detected_title (detected p) <> ""
  /\ query p = trimmed_query req
  /\ query p <> ""
  /\ exists data r,
       search_multi up (credential env) (trimmed_query req) = Js.Ok data
       /\ In r (results_of data)
       /\ detected_media_type (detected p) = media_type r
       /\ detected_id (detected p) = id r
       /\ detected_title (detected p) = title_of r.
Proof.
  by_behaviour env up req; cbn; try discriminate.
  intro Hbody. injection Hbody as <-. cbn.
  split; [|split; [apply title_of_nonempty|split; [reflexivity|split]]].
  - match goal with Hr : is_movie_or_tv _ = true |- _ =>
      unfold is_movie_or_tv in Hr; apply orb_true_iff in Hr as [Hr|Hr];
      apply String.eqb_eq in Hr; tauto end.
  - intro Hq. match goal with Ht : Js.truthy (trimmed_query req) = true |- _ =>
      rewrite Hq in Ht; discriminate Ht end.
  - exists data, r. repeat split; try assumption.
    eapply first_Some; eassumption.
Qed.

Lemma detected_entity_is_well_formed_witness :
  detected_media_type (detected Sample.payload) = "tv"
  /\ query Sample.payload = "Marry My Husband".
Proof.
  destruct (detected_entity_is_well_formed Sample.env
              (Sample.upstream Sample.mixed_hits Sample.catalog) Sample.req
              Sample.payload eq_refl) as (_ & _ & Hq & _).
  split; [reflexivity | exact Hq].
Defined.

(** ** When the logo loop throws *)

Lemma for_each_app {A S : Type} (body : S -> A -> Js.result S) (s : S)
  (l1 l2 : list A) :
  Js.for_each body s (l1 ++ l2) =
  match Js.for_each body s l1 with
  | Js.Ok s' => Js.for_each body s' l2
  | Js.Thrown e => Js.Thrown e
  end.
Proof.
  revert s. induction l1 as [|a l1 IH]; intro s; cbn; [reflexivity|].
  destruct (body s a); [apply IH | reflexivity].
Qed.

(** On a key that names a built-in and that no earlier logo has, the body
    of the logo loop throws. *)
Lemma logo_body_builtin (seen : list ImageAsset) (l : ImageAsset) :
  (forall x, In x seen -> Js.inherited (lang_key x) = false) ->
  Js.inherited (lang_key l) = true ->
  logo_body (buckets (first_seen (map lang_key seen)) has_key seen) l =
  Js.Thrown (Js.TypeError "groupedLogos[lang].push is not a function").
Proof.
  intros Hseen Hl.
  assert (Hfresh :
    Js.own (buckets (first_seen (map lang_key seen)) has_key seen)
      (lang_key l) = None).
  { rewrite own_buckets, includes_first_seen.
    destruct (Js.includes (map lang_key seen) (lang_key l)) eqn:E;
      [|reflexivity].
    apply includes_In, in_map_iff in E as (x & Hx & Hin).
    apply Hseen in Hin. rewrite Hx, Hl in Hin. discriminate. }
  unfold logo_body. cbv zeta. unfold Js.push, Js.get.
  rewrite Hfresh, Hl. cbn [Js.truthy_property]. now rewrite Hfresh.
Qed.

Lemma groupedLogos_throws (images : Images) :
  existsb (fun l => Js.inherited (lang_key l))
    (or_empty (Tmdb.logos images)) = true ->
  groupedLogos images =
  Js.Thrown (Js.TypeError "groupedLogos[lang].push is not a function").
Proof.
  intro Hex.
  destruct (find_first_split _ _ Hex) as (pre & l & post & Hsplit & Hpre & Hl & _).
  pose proof (logo_loop_buckets pre [] Hpre) as Hrun.
  change (buckets (first_seen (map lang_key [])) has_key [])
    with ([] : Js.object) in Hrun.
  cbn [app] in Hrun.
  unfold groupedLogos. rewrite Hsplit, for_each_app, Hrun.
  cbn [Js.for_each].
  now rewrite (logo_body_builtin pre l Hpre Hl).
Qed.

Lemma groupedLogos_cases (images : Images) :
  (existsb (fun l => Js.inherited (lang_key l))
     (or_empty (Tmdb.logos images)) = true
   /\ groupedLogos images =
      Js.Thrown (Js.TypeError "groupedLogos[lang].push is not a function"))
  \/ (existsb (fun l => Js.inherited (lang_key l))
        (or_empty (Tmdb.logos images)) = false
      /\ groupedLogos images =
         Js.Ok (buckets
                  (first_seen (map lang_key (or_empty (Tmdb.logos images))))
                  has_key (or_empty (Tmdb.logos images)))).
Proof.
  destruct (existsb _ (or_empty (Tmdb.logos images))) eqn:Hex.
  - left. split; [reflexivity | now apply groupedLogos_throws].
  - right. split; [reflexivity|]. unfold groupedLogos.
    apply (logo_loop_buckets (or_empty (Tmdb.logos images)) []).
    intros l Hl. destruct (Js.inherited (lang_key l)) eqn:E; [|reflexivity].
    assert (Hc : existsb (fun l => Js.inherited (lang_key l))
                   (or_empty (Tmdb.logos images)) = true)
      by (apply existsb_exists; eauto).
    rewrite Hc in Hex. discriminate.
Qed.

(** X9. The logo loop ends normally exactly when no logo's language key is
    the name of a built-in property of [Object.prototype]; otherwise it
    throws the TypeError "groupedLogos[lang].push is not a function",
    whatever the other logos are. *)
Theorem logos_fail_exactly_on_builtin_names (images : Images) :
  ((exists gl, groupedLogos images = Js.Ok gl) <->
     forall l, In l (or_empty (Tmdb.logos images)) ->
       ~ In (lang_key l) Js.object_prototype_names)
  /\ (forall e, groupedLogos images = Js.Thrown e ->
        e = Js.TypeError "groupedLogos[lang].push is not a function"
        /\ exists l, In l (or_empty (Tmdb.logos images))
                     /\ In (lang_key l) Js.object_prototype_names).
Proof.
  destruct (groupedLogos_cases images) as [(Hex & Hrun)|(Hex & Hrun)];
    rewrite Hrun.
  - apply existsb_exists in Hex as (l & Hl & Hname).
    apply includes_In in Hname. split.
    + split; [intros (gl & H); discriminate|].
      intro Hall. exfalso. exact (Hall l Hl Hname).
    + intros e H. injection H as <-. split; [reflexivity | eauto].
  - split.
    + split; [|eauto]. intros _ l Hl Hname.
      assert (Hc : existsb (fun l => Js.inherited (lang_key l))
                     (or_empty (Tmdb.logos images)) = true).
      { apply existsb_exists. exists l. split; [exact Hl|].
        now apply includes_In. }
      rewrite Hc in Hex. discriminate.
    + intros e H. discriminate.
Qed.

(** ** The successful run *)

(** X10. When the credential and the query are set, the search answers
    and a movie or tv element is selected, the image request is answered
    and no logo key names a built-in, the handler answers 200 after
    exactly the two calls, with the trimmed query, the selected entity, and
    the three groupings and the skipped list computed from the answered
    catalog. *)
Theorem success_is_complete (env : Env) (up : Upstream) (req : Request)
  (data : option MultiData) (r : SearchResult) (reply : option Images) :
  Js.truthy (credential env) = true ->
  Js.truthy (trimmed_query req) = true ->
  search_multi up (credential env) (trimmed_query req) = Js.Ok data ->
  first (results_of data) = Some r ->
  is_movie_or_tv r = true ->
  images_of up (media_type r) (id r) (credential env) language_filter =
    Js.Ok reply ->
  (forall l, In l (or_empty (Tmdb.logos (catalog_of reply))) ->
     ~ In (lang_key l) Js.object_prototype_names) ->
  exists gb gp gl,
    groupedBackdrops (catalog_of reply) = Js.Ok gb
    /\ groupedPosters (catalog_of reply) = Js.Ok gp
    /\ groupedLogos (catalog_of reply) = Js.Ok gl
    /\ handle_images env up req =
       (status_json 200 (Success
          {| query := trimmed_query req;
             detected :=
               {| detected_media_type := media_type r;
                  detected_id := id r;
                  detected_title := title_of r |};
             backdrops := gb;
             posters := gp;
             logos := gl;
             Http.skipped := skipped_list gb gp gl |}),
        [SearchMulti (credential env) (trimmed_query req);
         GetImages (media_type r) (id r) (credential env)
           "en,hi,ta,te,ja,ko,null"]).
Proof.
  intros Hk Hq Hs Hf Hr Hi Hnames.
  destruct (groupedLogos_cases (catalog_of reply)) as [(Hex & _)|(_ & Hl)].
  { apply existsb_exists in Hex as (l & Hin & Hname).
    apply includes_In in Hname. destruct (Hnames l Hin Hname). }
  eexists _, _, _.
  split; [apply groupedBackdrops_buckets|].
  split; [apply groupedPosters_buckets|].
  split; [exact Hl|].
  rewrite (handle_images_proceeds _ _ _ Hk Hq). unfold try_catch.
  now rewrite (resolve_selected_exact _ _ _ _ _ Hs Hf Hr), Hi, Hl.
Qed.

Lemma success_is_complete_witness :
  handle_images Sample.env (Sample.upstream Sample.mixed_hits Sample.catalog)
    Sample.req =
  (status_json 200 (Success Sample.payload),
   [SearchMulti "k3y" "Marry My Husband";
    GetImages "tv" 22 "k3y" "en,hi,ta,te,ja,ko,null"]).
Proof.
  destruct (success_is_complete Sample.env
              (Sample.upstream Sample.mixed_hits Sample.catalog) Sample.req
              (Some {| results := Some Sample.mixed_hits |})
              (Sample.hit 22 "tv" "B") (Some Sample.catalog)
              eq_refl eq_refl eq_refl eq_refl eq_refl eq_refl)
    as (gb & gp & gl & _ & _ & _ & _).
  - intros l [<-|[<-|[<-|[]]]] Hname; cbn in Hname;
      repeat (destruct Hname as [Hname|Hname]; [discriminate Hname|]);
      exact Hname.
  - reflexivity.
Defined.

(** X11. The handler answers 200 exactly when the credential and the
    query are set, the search succeeds and its results hold a movie or tv
    element, the image request for the selected element succeeds, and no
    logo key of the answered catalog names a built-in. *)
Theorem success_iff (env : Env) (up : Upstream) (req : Request) :
  status (fst (handle_images env up req)) = 200%Z <->
  Js.truthy (credential env) = true
  /\ Js.truthy (trimmed_query req) = true
  /\ exists data r reply,
       search_multi up (credential env) (trimmed_query req) = Js.Ok data
       /\ first (results_of data) = Some r
       /\ is_movie_or_tv r = true
       /\ images_of up (media_type r) (id r) (credential env)
            language_filter = Js.Ok reply
       /\ forall l, In l (or_empty (Tmdb.logos (catalog_of reply))) ->
            ~ In (lang_key l) Js.object_prototype_names.
Proof.
  split.
  - by_behaviour env up req; cbn; try discriminate. intros _.
    repeat (split; [assumption|]). exists data, r, reply.
    repeat (split; [assumption|]). intros l Hin Hname.
    destruct (groupedLogos_cases (catalog_of reply)) as [(_ & Ht)|(Hex & _)];
      [same_reply|].
    assert (Hc : existsb (fun l => Js.inherited (lang_key l))
                   (or_empty (Tmdb.logos (catalog_of reply))) = true).
    { apply existsb_exists. exists l. split; [exact Hin|].
      now apply includes_In. }
    rewrite Hc in Hex. discriminate.
  - intros (Hk & Hq & data & r & reply & Hs & Hf & Hr & Hi & Hnames).
    destruct (groupedLogos_cases (catalog_of reply)) as [(Hex & _)|(_ & Hl)].
    { apply existsb_exists in Hex as (l & Hin & Hname).
      apply includes_In in Hname. destruct (Hnames l Hin Hname). }
    rewrite (handle_images_proceeds _ _ _ Hk Hq). unfold try_catch.
    now rewrite (resolve_selected_exact _ _ _ _ _ Hs Hf Hr), Hi, Hl.
Qed.

(** X12. One logo whose language key names a built-in fails the whole
    request: after both calls the handler answers 500 with the TypeError's
    message as details, and no grouping is returned. *)
Theorem builtin_logo_key_fails_the_request (env : Env) (up : Upstream)
  (req : Request) (data : option MultiData) (r : SearchResult)
  (reply : option Images) (l : ImageAsset) :
  Js.truthy (credential env) = true ->
  Js.truthy (trimmed_query req) = true ->
  search_multi up (credential env) (trimmed_query req) = Js.Ok data ->
  first (results_of data) = Some r ->
  is_movie_or_tv r = true ->
  images_of up (media_type r) (id r) (credential env) language_filter =
    Js.Ok reply ->
  In l (or_empty (Tmdb.logos (catalog_of reply))) ->
  In (lang_key l) Js.object_prototype_names ->
  handle_images env up req =
  (status_json 500
     (ErrorDetails "Error fetching data"
        "groupedLogos[lang].push is not a function"),
   [SearchMulti (credential env) (trimmed_query req);
    GetImages (media_type r) (id r) (credential env)
      "en,hi,ta,te,ja,ko,null"]).
Proof.
  intros Hk Hq Hs Hf Hr Hi Hin Hname.
  assert (Hex : existsb (fun l => Js.inherited (lang_key l))
                  (or_empty (Tmdb.logos (catalog_of reply))) = true).
  { apply existsb_exists. exists l. split; [exact Hin|].
    now apply includes_In. }
  rewrite (handle_images_proceeds _ _ _ Hk Hq). unfold try_catch.
  now rewrite (resolve_selected_exact _ _ _ _ _ Hs Hf Hr), Hi,
    (groupedLogos_throws _ Hex).
Qed.

Lemma builtin_logo_key_fails_the_request_witness :
  handle_images Sample.env
    (Sample.upstream Sample.mixed_hits Sample.odd_catalog) Sample.req =
  (status_json 500
     (ErrorDetails "Error fetching data"
        "groupedLogos[lang].push is not a function"),
   [SearchMulti "k3y" "Marry My Husband";
    GetImages "tv" 22 "k3y" "en,hi,ta,te,ja,ko,null"]).
Proof.
  apply (builtin_logo_key_fails_the_request Sample.env
           (Sample.upstream Sample.mixed_hits Sample.odd_catalog) Sample.req
           (Some {| results := Some Sample.mixed_hits |})
           (Sample.hit 22 "tv" "B") (Some Sample.odd_catalog)
           (Sample.asset "/l1.png" (Some "constructor")));
    try reflexivity.
  - now left.
  - now left.
Defined.

(** X13. When the image reply has no body, or a body without backdrops,
    posters and logos, the handler still answers 200: the three backdrop
    buckets and the six poster buckets are present and empty, the logos
    object has no key, and the skipped list names all three categories. *)
Theorem empty_catalog_is_a_success (env : Env) (up : Upstream)
  (req : Request) (data : option MultiData) (r : SearchResult)
  (reply : option Images) :
  Js.truthy (credential env) = true ->
  Js.truthy (trimmed_query req) = true ->
  search_multi up (credential env) (trimmed_query req) = Js.Ok data ->
  first (results_of data) = Some r ->
  is_movie_or_tv r = true ->
  images_of up (media_type r) (id r) (credential env) language_filter =
    Js.Ok reply ->
  or_empty (Tmdb.backdrops (catalog_of reply)) = [] ->
  or_empty (Tmdb.posters (catalog_of reply)) = [] ->
  or_empty (Tmdb.logos (catalog_of reply)) = [] ->
  exists p,
    fst (handle_images env up req) = status_json 200 (Success p)
    /\ backdrops p = [("en", []); ("hi", []); ("null", [])]
    /\ posters p =
       [("en", []); ("hi", []); ("ta", []); ("te", []); ("ja", []);
        ("ko", [])]
    /\ logos p = []
    /\ Http.skipped p =
       ["Backdrops (en/hi/null)"; "Posters (en, hi, ta, te, ja, ko)";
        "Logos (All Languages)"].
Proof.
  intros Hk Hq Hs Hf Hr Hi Hb Hp Hl.
  assert (Hgl : groupedLogos (catalog_of reply) = Js.Ok []).
  { unfold groupedLogos. now rewrite Hl. }
  rewrite (handle_images_proceeds _ _ _ Hk Hq). unfold try_catch.
  rewrite (resolve_selected_exact _ _ _ _ _ Hs Hf Hr), Hi, Hgl, Hb, Hp.
  eexists. cbn. split; [reflexivity|]. cbn. repeat split.
Qed.

Lemma empty_catalog_is_a_success_witness :
  exists p,
    fst (handle_images Sample.env (Faulty.bare Sample.mixed_hits) Sample.req)
    = status_json 200 (Success p)
    /\ logos p = []
    /\ Http.skipped p =
       ["Backdrops (en/hi/null)"; "Posters (en, hi, ta, te, ja, ko)";
        "Logos (All Languages)"].
Proof.
  destruct (empty_catalog_is_a_success Sample.env
              (Faulty.bare Sample.mixed_hits) Sample.req
              (Some {| results := Some Sample.mixed_hits |})
              (Sample.hit 22 "tv" "B") None
              eq_refl eq_refl eq_refl eq_refl eq_refl eq_refl
              eq_refl eq_refl eq_refl)
    as (p & Hresp & _ & _ & Hlogos & Hskip).
  exists p. split; [exact Hresp|]. split; assumption.
Defined.

(** ** The skipped list and the catalog *)

Lemma filter_nil_iff {A} (f : A -> bool) (l : list A) :
  filter f l = [] <-> forall x, In x l -> f x = false.
Proof.
  split; [|apply filter_all_false].
  induction l as [|a l IH]; cbn; [tauto|].
  destruct (f a) eqn:Ha; [discriminate|].
  intros H x [<-|Hx]; [exact Ha | now apply IH].
Qed.

Lemma length_at_buckets (keys : list string)
  (sel : string -> ImageAsset -> bool) (assets : list ImageAsset)
  (k : string) :
  In k keys ->
  (Nat.eqb (Js.length_at (buckets keys sel assets) k) 0 = true <->
   forall a, In a assets -> sel k a = false).
Proof.
  intro Hk. unfold Js.length_at. rewrite own_buckets.
  apply includes_In in Hk. rewrite Hk. unfold asFull.
  rewrite length_map, Nat.eqb_eq, length_zero_iff_nil.
  apply filter_nil_iff.
Qed.

Lemma groupedLogos_total (images : Images) (gl : Js.object) :
  groupedLogos images = Js.Ok gl ->
  total gl = length (or_empty (Tmdb.logos images)).
Proof.
  unfold groupedLogos. intro Hrun.
  apply (for_each_invariant logo_body
           (fun seen o => total o = length seen)) with (seen := [])
    in Hrun; [exact Hrun| |reflexivity].
  intros seen s a s' Hs Hb. rewrite (logo_body_total _ _ _ Hb), Hs.
  rewrite length_app. cbn. lia.
Qed.

Lemma groupedLogos_keys_nil (images : Images) (gl : Js.object) :
  groupedLogos images = Js.Ok gl ->
  (Js.keys gl = [] <-> or_empty (Tmdb.logos images) = []).
Proof.
  intro Hrun. split.
  - intro Hk. apply map_eq_nil in Hk. subst gl.
    apply groupedLogos_total in Hrun. cbn in Hrun.
    now apply length_zero_iff_nil.
  - intro Hl. unfold groupedLogos in Hrun. rewrite Hl in Hrun.
    cbn in Hrun. now injection Hrun as <-.
Qed.

(** Membership in the skipped list, entry by entry. *)
Lemma skipped_list_In (gb gp gl : Js.object) (entry : string) :
  In entry (skipped_list gb gp gl) <->
  (entry = backdrops_label
   /\ Nat.eqb (Js.length_at gb "en") 0 && Nat.eqb (Js.length_at gb "hi") 0
      && Nat.eqb (Js.length_at gb "null") 0 = true)
  \/ (entry = posters_label (posterSectionsSkipped gp)
      /\ posterSectionsSkipped gp <> [])
  \/ (entry = logos_label /\ Js.keys gl = []).
Proof.
  unfold skipped_list. rewrite !in_app_iff.
  assert (H1 : forall (b : bool) (x : string),
            In entry (if b then [x] else []) <-> entry = x /\ b = true).
  { intros [|] x; cbn; intuition congruence. }
  rewrite H1.
  assert (H2 : In entry
                 (match posterSectionsSkipped gp with
                  | [] => []
                  | _ :: _ => [posters_label (posterSectionsSkipped gp)]
                  end) <->
               entry = posters_label (posterSectionsSkipped gp)
               /\ posterSectionsSkipped gp <> []).
  { destruct (posterSectionsSkipped gp); cbn; intuition congruence. }
  assert (H3 : In entry
                 (if Nat.eqb (length (Js.keys gl)) 0 then [logos_label]
                  else []) <->
               entry = logos_label /\ Js.keys gl = []).
  { rewrite H1, Nat.eqb_eq, length_zero_iff_nil. tauto. }
  rewrite <- H2, <- H3.
  destruct (posterSectionsSkipped gp); tauto.
Qed.

(** X14. The skipped list read against the upstream catalog: the backdrops
    entry is there exactly when no backdrop has the key en, hi or null; the
    logos entry exactly when the catalog has no logo; a language is listed
    in the posters entry exactly when it is one of the six and no poster
    carries that code; and nothing is skipped exactly when some backdrop is
    kept, each of the six languages has a poster, and there is a logo. *)
Theorem skipped_reflects_catalog (images : Images) (gb gp gl : Js.object) :
  groupedBackdrops images = Js.Ok gb ->
  groupedPosters images = Js.Ok gp ->
  groupedLogos images = Js.Ok gl ->
  (In "Backdrops (en/hi/null)" (skipped_list gb gp gl) <->
     forall b, In b (or_empty (Tmdb.backdrops images)) ->
       ~ In (lang_key b) ["en"; "hi"; "null"])
  /\ (In "Logos (All Languages)" (skipped_list gb gp gl) <->
        or_empty (Tmdb.logos images) = [])
  /\ (forall l, In l (posterSectionsSkipped gp) <->
        In l posterLangs
        /\ forall p, In p (or_empty (Tmdb.posters images)) ->
             iso_639_1 p <> Some l)
  /\ (skipped_list gb gp gl = [] <->
        (exists b, In b (or_empty (Tmdb.backdrops images))
                   /\ In (lang_key b) ["en"; "hi"; "null"])
        /\ (forall l, In l posterLangs ->
              exists p, In p (or_empty (Tmdb.posters images))
                        /\ iso_639_1 p = Some l)
        /\ or_empty (Tmdb.logos images) <> []).
Proof.
  intros Hb Hp Hl.
  rewrite groupedBackdrops_buckets in Hb.
  rewrite groupedPosters_buckets in Hp.
  assert (Egb : gb = buckets ["en"; "hi"; "null"] has_key
                  (or_empty (Tmdb.backdrops images))) by congruence.
  assert (Egp : gp = buckets posterLangs has_code
                  (or_empty (Tmdb.posters images))) by congruence.
  clear Hb Hp.
  set (bs := or_empty (Tmdb.backdrops images)) in *.
  set (ps := or_empty (Tmdb.posters images)) in *.
  assert (Hzero :
    Nat.eqb (Js.length_at gb "en") 0 && Nat.eqb (Js.length_at gb "hi") 0
    && Nat.eqb (Js.length_at gb "null") 0 = true <->
    forall b, In b bs -> ~ In (lang_key b) ["en"; "hi"; "null"]).
  { rewrite !andb_true_iff, Egb.
    rewrite !length_at_buckets by (cbn; tauto).
    unfold has_key. split.
    - intros [[Hen Hhi] Hnull] b Hin [E|[E|[E|[]]]];
        [specialize (Hen b Hin) | specialize (Hhi b Hin)
         | specialize (Hnull b Hin)];
        rewrite <- E, String.eqb_refl in *; discriminate.
    - intro H. repeat split; intros b Hin; apply String.eqb_neq;
        intro E; apply (H b Hin); rewrite E; cbn; tauto. }
  assert (Hsk : forall l, In l (posterSectionsSkipped gp) <->
            In l posterLangs /\ forall p, In p ps -> iso_639_1 p <> Some l).
  { intro l. unfold posterSectionsSkipped. rewrite filter_In.
    split; intros [Hin H]; (split; [exact Hin|]).
    - rewrite Egp in H.
      pose proof (proj1 (length_at_buckets posterLangs has_code ps l Hin) H)
        as Hnone.
      intros p Hp E. specialize (Hnone p Hp). unfold has_code in Hnone.
      rewrite E, String.eqb_refl in Hnone. discriminate.
    - rewrite Egp.
      apply (proj2 (length_at_buckets posterLangs has_code ps l Hin)).
      intros p Hp. unfold has_code.
      destruct (iso_639_1 p) as [c|] eqn:E; [|reflexivity].
      apply String.eqb_neq. intros ->. exact (H p Hp E). }
  assert (Hlogos := groupedLogos_keys_nil images gl Hl).
  split; [|split; [|split; [exact Hsk|]]].
  - rewrite skipped_list_In. split.
    + intros [(_ & Hz)|[(E & _)|(E & _)]]; try discriminate.
      now apply Hzero.
    + intro H. left. split; [reflexivity | now apply Hzero].
  - rewrite skipped_list_In. split.
      * intros [(E & _)|[(E & _)|(_ & Hk)]]; try discriminate.
        now apply Hlogos.
      * intro H. right. right. split; [reflexivity | now apply Hlogos].
  - split.
      * intro Hnil. split; [|split].
        -- destruct (existsb (fun b => Js.includes ["en"; "hi"; "null"]
                                        (lang_key b)) bs) eqn:Hex.
           ++ apply existsb_exists in Hex as (b & Hin & Hb).
              exists b. split; [exact Hin | now apply includes_In].
           ++ exfalso.
              assert (Hin : In backdrops_label (skipped_list gb gp gl)).
              { apply skipped_list_In. left. split; [reflexivity|].
                apply Hzero. intros b Hb Hk.
                assert (Hc : existsb (fun b => Js.includes
                                 ["en"; "hi"; "null"] (lang_key b)) bs = true).
                { apply existsb_exists. exists b. split; [exact Hb|].
                  now apply includes_In. }
                rewrite Hc in Hex. discriminate. }
              rewrite Hnil in Hin. destruct Hin.
        -- intros l Hin.
           destruct (existsb (has_code l) ps) eqn:Hex.
           ++ apply existsb_exists in Hex as (p & Hp & Hc).
              exists p. split; [exact Hp|]. unfold has_code in Hc.
              destruct (iso_639_1 p) as [c|]; [|discriminate].
              apply String.eqb_eq in Hc. now subst.
           ++ exfalso.
              assert (Hl' : In l (posterSectionsSkipped gp)).
              { apply Hsk. split; [exact Hin|]. intros p Hp E.
                assert (Hc : existsb (has_code l) ps = true).
                { apply existsb_exists. exists p. split; [exact Hp|].
                  unfold has_code. rewrite E. apply String.eqb_refl. }
                rewrite Hc in Hex. discriminate. }
              assert (Hin' : In (posters_label (posterSectionsSkipped gp))
                               (skipped_list gb gp gl)).
              { apply skipped_list_In. right. left.
                split; [reflexivity|]. intro E. rewrite E in Hl'.
                destruct Hl'. }
              rewrite Hnil in Hin'. destruct Hin'.
        -- intro E. apply Hlogos in E.
           assert (Hin : In logos_label (skipped_list gb gp gl)).
           { apply skipped_list_In. right. right. now split. }
           rewrite Hnil in Hin. destruct Hin.
      * intros ((b & Hb & Hkb) & Hall & Hne).
        destruct (skipped_list gb gp gl) as [|entry rest] eqn:E;
          [reflexivity|].
        exfalso.
        assert (Hin : In entry (skipped_list gb gp gl))
          by (rewrite E; now left).
        apply skipped_list_In in Hin as [(_ & Hz)|[(_ & Hn)|(_ & Hk)]].
        -- exact (proj1 Hzero Hz b Hb Hkb).
        -- destruct (posterSectionsSkipped gp) as [|l ls] eqn:El;
             [contradiction|].
           destruct (proj1 (Hsk l) (or_introl eq_refl)) as (Hin' & Hno).
           destruct (Hall l Hin') as (p & Hp & Hc). exact (Hno p Hp Hc).
        -- apply Hlogos in Hk. contradiction.
Qed.

Lemma skipped_reflects_catalog_witness :
  skipped_list
    [("en", []); ("hi", []); ("null", [])]
    [("en", ["https://image.tmdb.org/t/p/original/p1.jpg"]);
     ("hi", []); ("ta", []); ("te", []); ("ja", []); ("ko", [])]
    [] = [] <->
  (exists b, In b (or_empty (Tmdb.backdrops Sample.one_poster))
             /\ In (lang_key b) ["en"; "hi"; "null"])
  /\ (forall l, In l posterLangs ->
        exists p, In p (or_empty (Tmdb.posters Sample.one_poster))
                  /\ iso_639_1 p = Some l)
  /\ or_empty (Tmdb.logos Sample.one_poster) <> [].
Proof.
  refine (proj2 (proj2 (proj2
    (skipped_reflects_catalog Sample.one_poster _ _ _ _ _ _))));
    reflexivity.
Defined.

(** ** How many URLs are kept *)

Lemma backdrop_body_total (seen : list ImageAsset) (o o' : Js.object)
  (b : ImageAsset) :
  total o =
    length (filter (fun b => Js.includes ["en"; "hi"; "null"] (lang_key b))
              seen) ->
  backdrop_body o b = Js.Ok o' ->
  total o' =
    length (filter (fun b => Js.includes ["en"; "hi"; "null"] (lang_key b))
              (seen ++ [b])).
Proof.
  intros Hs Hb. unfold backdrop_body in Hb. rewrite backdrop_test in Hb.
  rewrite filter_app, length_app. cbn [filter].
  destruct (Js.includes _ (lang_key b)).
  - apply push_Ok in Hb as (-> & arr & Harr).
    rewrite (total_push_own _ _ _ _ Harr), Hs. cbn. lia.
  - injection Hb as <-. rewrite Hs. cbn. lia.
Qed.

Lemma poster_body_total (seen : list ImageAsset) (o o' : Js.object)
  (p : ImageAsset) :
  total o =
    length (filter (fun p => match iso_639_1 p with
                             | Some code => Js.includes posterLangs code
                             | None => false
                             end) seen) ->
  poster_body o p = Js.Ok o' ->
  total o' =
    length (filter (fun p => match iso_639_1 p with
                             | Some code => Js.includes posterLangs code
                             | None => false
                             end) (seen ++ [p])).
Proof.
  intros Hs Hb. unfold poster_body in Hb.
  rewrite filter_app, length_app. cbn [filter].
  destruct (iso_639_1 p) as [code|].
  - destruct (Js.includes posterLangs code).
    + apply push_Ok in Hb as (-> & arr & Harr).
      rewrite (total_push_own _ _ _ _ Harr), Hs. cbn. lia.
    + injection Hb as <-. rewrite Hs. cbn. lia.
  - injection Hb as <-. rewrite Hs. cbn. lia.
Qed.

(** X15. The backdrops object holds one URL for each backdrop whose key is
    en, hi or null, the posters object one URL for each poster whose code
    is one of the six, and the logos object one URL for each logo; so the
    response never holds more URLs than the catalog has assets. *)
Theorem kept_counts (images : Images) (gb gp gl : Js.object) :
  groupedBackdrops images = Js.Ok gb ->
  groupedPosters images = Js.Ok gp ->
  groupedLogos images = Js.Ok gl ->
  total gb =
    length (filter (fun b => Js.includes ["en"; "hi"; "null"] (lang_key b))
              (or_empty (Tmdb.backdrops images)))
  /\ total gp =
     length (filter (fun p => match iso_639_1 p with
                              | Some code => Js.includes posterLangs code
                              | None => false
                              end)
               (or_empty (Tmdb.posters images)))
  /\ total gl = length (or_empty (Tmdb.logos images))
  /\ total gb + total gp + total gl <=
     length (or_empty (Tmdb.backdrops images))
     + length (or_empty (Tmdb.posters images))
     + length (or_empty (Tmdb.logos images)).
Proof.
  intros Hb Hp Hl.
  assert (Eb : total gb =
    length (filter (fun b => Js.includes ["en"; "hi"; "null"] (lang_key b))
              (or_empty (Tmdb.backdrops images)))).
  { unfold groupedBackdrops in Hb.
    apply (for_each_invariant backdrop_body
             (fun seen o => total o =
                length (filter (fun b => Js.includes ["en"; "hi"; "null"]
                                           (lang_key b)) seen)))
      with (seen := []) in Hb; [exact Hb| |reflexivity].
    intros seen s a s'. apply backdrop_body_total. }
  assert (Ep : total gp =
    length (filter (fun p => match iso_639_1 p with
                             | Some code => Js.includes posterLangs code
                             | None => false
                             end)
              (or_empty (Tmdb.posters images)))).
  { unfold groupedPosters in Hp.
    apply (for_each_invariant poster_body
             (fun seen o => total o =
                length (filter (fun p => match iso_639_1 p with
                                         | Some code =>
                                             Js.includes posterLangs code
                                         | None => false
                                         end) seen)))
      with (seen := []) in Hp; [exact Hp| |reflexivity].
    intros seen s a s'. apply poster_body_total. }
  assert (El := groupedLogos_total images gl Hl).
  repeat (split; [assumption|]).
  rewrite Eb, Ep, El.
  pose proof (filter_length_le
    (fun b => Js.includes ["en"; "hi"; "null"] (lang_key b))
    (or_empty (Tmdb.backdrops images))).
  pose proof (filter_length_le
    (fun p => match iso_639_1 p with
              | Some code => Js.includes posterLangs code
              | None => false
              end)
    (or_empty (Tmdb.posters images))).
  lia.
Qed.

Lemma kept_counts_witness :
  total [("en", ["https://image.tmdb.org/t/p/original/b1.jpg"]); ("hi", []);
         ("null", ["https://image.tmdb.org/t/p/original/b3.jpg"])] =
  length (filter (fun b => Js.includes ["en"; "hi"; "null"] (lang_key b))
            (or_empty (Tmdb.backdrops Sample.catalog))).
Proof.
  refine (proj1 (kept_counts Sample.catalog _
    [("en", []); ("hi", []);
     ("ta", ["https://image.tmdb.org/t/p/original/p1.jpg"]);
     ("te", []); ("ja", []); ("ko", [])]
    [("en", ["https://image.tmdb.org/t/p/original/l1.png";
             "https://image.tmdb.org/t/p/original/l3.png"]);
     ("null", ["https://image.tmdb.org/t/p/original/l2.png"])]
    _ _ _)); reflexivity.
Defined.

(** ** The selection on its own *)

(** X16. The selection yields nothing exactly on an empty sequence; what it
    yields is an element of the sequence, and it is either a movie or tv
    element or, when the sequence holds none, the first element. *)
Theorem selection_is_an_element (rs : list SearchResult) :
  (first rs = None <-> rs = [])
  /\ (forall r, first rs = Some r ->
        In r rs
        /\ (is_movie_or_tv r = true
            \/ existsb is_movie_or_tv rs = false
               /\ exists rest, rs = r :: rest)).
Proof.
  split.
  - split; [apply first_None | now intros ->].
  - intros r Hf. apply first_Some in Hf as (Hin & [(Hr & _)|(_ & Hn & Hh)]);
      tauto.
Qed.

(** ** The formatted text *)

Lemma append_assoc (a b c : string) :
  ((a ++ b) ++ c = a ++ (b ++ c))%string.
Proof. induction a as [|x a IH]; cbn; [reflexivity | now rewrite IH]. Qed.

Lemma append_nil_r (a : string) : (a ++ "" = a)%string.
Proof. induction a as [|x a IH]; cbn; [reflexivity | now rewrite IH]. Qed.

(** A loop that only appends to the text appends the pieces in order. *)
Lemma fold_left_appends {A} (step : string -> A -> string)
  (piece : A -> string) :
  (forall f x, step f x = (f ++ piece x)%string) ->
  forall l f, fold_left step l f = (f ++ flatten (map piece l))%string.
Proof.
  intros Hstep l. induction l as [|x l IH]; intro f; cbn.
  - now rewrite append_nil_r.
  - now rewrite IH, Hstep, append_assoc.
Qed.

(** The numbering loop appends one line per URL, numbered from [i + 1]. *)
Lemma numbered_appends (urls : list string) (i : nat) (f : string) :
  numbered i f urls =
  (f ++ flatten
         (map (fun iu => decimal (fst iu + 1) ++ ". " ++ snd iu ++ nl)
            (combine (seq i (length urls)) urls)))%string.
Proof.
  revert i f. induction urls as [|u urls IH]; intros i f; cbn.
  - now rewrite append_nil_r.
  - rewrite IH. now rewrite !append_assoc.
Qed.

Lemma section_body_appends (titles : list (string * string))
  (grouped : Js.object) (f k : string) :
  section_body titles grouped f k =
  (f ++ fixed_section titles grouped k)%string.
Proof.
  unfold section_body, fixed_section.
  destruct (Js.own grouped k) as [[|u urls]|];
    try now rewrite append_nil_r.
  unfold section_text, numbered_lines. rewrite numbered_appends.
  now rewrite !append_assoc.
Qed.

Lemma logo_section_body_appends (toUpperCase : string -> string)
  (f : string) (entry : string * list string) :
  logo_section_body toUpperCase f entry =
  (f ++ logo_section toUpperCase entry)%string.
Proof.
  destruct entry as [lang urls].
  unfold logo_section_body, logo_section, section_text, numbered_lines.
  rewrite numbered_appends. cbn [fst snd]. now rewrite !append_assoc.
Qed.

(** X17. The formatted text is the header line and an empty line; then,
    in the order en, hi, null, one section per non-empty backdrop bucket;
    then, in the order en, hi, ta, te, ja, ko, one section per non-empty
    poster bucket; then, when the logos object has a key, the logos heading
    and one section per logo key in enumeration order; then, when something
    was skipped, the skipped heading, one bullet per entry and an empty
    line.  A section is its title line, the URLs of the bucket in order,
    numbered from 1, and an empty line; an empty bucket leaves no trace. *)
Theorem formatted_section_by_section (toUpperCase : string -> string)
  (title media_type : string) (gb gp gl : Js.object)
  (skipped : list string) :
  formatted toUpperCase title media_type gb gp gl skipped =
  (("🎬 Results for " ++ title ++ " (" ++ toUpperCase media_type ++ ")"
    ++ nl ++ nl)
   ++ flatten (map (fixed_section backTitleMap gb) ["en"; "hi"; "null"])
   ++ flatten (map (fixed_section posterTitleMap gp)
                 ["en"; "hi"; "ta"; "te"; "ja"; "ko"])
   ++ match Js.keys gl with
      | [] => ""
      | _ :: _ =>
          "🎯 Logos (All Languages)" ++ nl
          ++ flatten (map (logo_section toUpperCase) (Enumeration.entries gl))
      end
   ++ match skipped with
      | [] => ""
      | _ :: _ =>
          "⚠️ Skipped:" ++ nl
          ++ flatten (map (fun s => "- " ++ s ++ nl) skipped) ++ nl
      end)%string
  /\ (forall titles grouped k,
        Js.own grouped k = Some [] \/ Js.own grouped k = None ->
        fixed_section titles grouped k = "")
  /\ (forall heading u1 u2,
        section_text heading [u1; u2] =
        (heading ++ nl ++ "1. " ++ u1 ++ nl ++ "2. " ++ u2 ++ nl ++ nl)%string).
Proof.
  split; [|split].
  - unfold formatted.
    rewrite (fold_left_appends _ _ (section_body_appends backTitleMap gb)).
    rewrite (fold_left_appends _ _ (section_body_appends posterTitleMap gp)).
    change posterLangs with ["en"; "hi"; "ta"; "te"; "ja"; "ko"].
    set (backs := flatten (map (fixed_section backTitleMap gb) _)).
    set (posts := flatten (map (fixed_section posterTitleMap gp) _)).
    set (header := ("🎬 Results for " ++ title ++ " ("
                    ++ toUpperCase media_type ++ ")" ++ nl ++ nl)%string).
    destruct (Js.keys gl) as [|k ks]; destruct skipped as [|s ss].
    + now rewrite !append_assoc, !append_nil_r.
    + rewrite (fold_left_appends _ (fun s => ("- " ++ s ++ nl)%string))
        by reflexivity.
      now rewrite !append_assoc.
    + rewrite (fold_left_appends _ _
                 (logo_section_body_appends toUpperCase)).
      now rewrite !append_assoc, !append_nil_r.
    + rewrite (fold_left_appends _ _
                 (logo_section_body_appends toUpperCase)).
      rewrite (fold_left_appends _ (fun s => ("- " ++ s ++ nl)%string))
        by reflexivity.
      now rewrite !append_assoc.
  - intros titles grouped k [H|H]; unfold fixed_section; now rewrite H.
  - intros heading u1 u2. unfold section_text, numbered_lines, nl.
    repeat (cbn; rewrite ?append_assoc, ?append_nil_r). reflexivity.
Qed.

(** The text for the sample payload, with the letters a to z put in upper
    case. *)
Example formatted_of_sample :
  formatted_of Faulty.ascii_upper Sample.payload =
  "🎬 Results for B (TV)

🇺🇸 English Landscape
1. https://image.tmdb.org/t/p/original/b1.jpg

🌐 Clean Landscape
1. https://image.tmdb.org/t/p/original/b3.jpg

🇮🇳 Tamil Posters
1. https://image.tmdb.org/t/p/original/p1.jpg

🎯 Logos (All Languages)
🌐 EN
1. https://image.tmdb.org/t/p/original/l1.png
2. https://image.tmdb.org/t/p/original/l3.png

🌐 No Language
1. https://image.tmdb.org/t/p/original/l2.png

⚠️ Skipped:
- Posters (en, hi, te, ja, ko)

".
Proof. reflexivity. Qed.

(** ** Enumeration order of the logos *)

Lemma insert_by_index_perm (e : string * list string)
  (l : list (string * list string)) :
  Permutation (Enumeration.insert_by_index e l) (e :: l).
Proof.
  induction l as [|x l IH]; cbn; [reflexivity|].
  destruct (_ <=? _)%N; [reflexivity|].
  rewrite IH. apply perm_swap.
Qed.

Lemma sort_by_index_perm (l : list (string * list string)) :
  Permutation (Enumeration.sort_by_index l) l.
Proof.
  induction l as [|x l IH]; cbn; [reflexivity|].
  rewrite insert_by_index_perm. now constructor.
Qed.

Lemma filter_split_perm {A} (f : A -> bool) (l : list A) :
  Permutation (filter f l ++ filter (fun x => negb (f x)) l) l.
Proof.
  induction l as [|x l IH]; cbn; [reflexivity|].
  destruct (f x); cbn.
  - now constructor.
  - rewrite <- Permutation_middle. now constructor.
Qed.

Lemma entries_perm (o : Js.object) : Permutation (Enumeration.entries o) o.
Proof.
  unfold Enumeration.entries. rewrite sort_by_index_perm.
  apply filter_split_perm.
Qed.

Lemma entries_without_index (o : Js.object) :
  (forall k, In k (Js.keys o) -> Enumeration.array_index k = None) ->
  Enumeration.entries o = o.
Proof.
  intro H. unfold Enumeration.entries.
  assert (Hno : forall e, In e o -> Enumeration.is_index e = false).
  { intros e He. unfold Enumeration.is_index.
    rewrite (H (fst e)); [reflexivity|]. now apply in_map. }
  rewrite (filter_all_false _ _ Hno). cbn.
  apply filter_all_true. intros e He. now rewrite (Hno e He).
Qed.

(** X18. The enumeration of the logos object, which the text follows,
    holds every bucket once; when no logo's language key is an array index
    (as for every alphabetic code and for "null"), it lists the buckets in
    the first-seen order of their keys. *)
Theorem logo_sections_in_first_seen_order (images : Images)
  (gl : Js.object) :
  groupedLogos images = Js.Ok gl ->
  Permutation (Enumeration.entries gl) gl
  /\ ((forall l, In l (or_empty (Tmdb.logos images)) ->
         Enumeration.array_index (lang_key l) = None) ->
      Enumeration.entries gl = gl
      /\ map fst (Enumeration.entries gl) =
         first_seen (map lang_key (or_empty (Tmdb.logos images)))).
Proof.
  intro Hrun. split; [apply entries_perm|]. intro Hno.
  assert (Hkeys : Js.keys gl =
                  first_seen (map lang_key (or_empty (Tmdb.logos images)))).
  { destruct (groupedLogos_cases images) as [(_ & Ht)|(_ & Hok)];
      [same_reply|].
    rewrite Hok in Hrun. injection Hrun as <-. apply keys_buckets. }
  assert (E : Enumeration.entries gl = gl).
  { apply entries_without_index. intros k Hk. rewrite Hkeys in Hk.
    apply first_seen_In, in_map_iff in Hk as (l & <- & Hl).
    now apply Hno. }
  split; [exact E|]. rewrite E. exact Hkeys.
Qed.

Lemma logo_sections_in_first_seen_order_witness :
  map fst
    (Enumeration.entries
       [("en", ["https://image.tmdb.org/t/p/original/l1.png";
                "https://image.tmdb.org/t/p/original/l3.png"]);
        ("null", ["https://image.tmdb.org/t/p/original/l2.png"])]) =
  first_seen (map lang_key (or_empty (Tmdb.logos Sample.catalog))).
Proof.
  refine (proj2 (proj2 (logo_sections_in_first_seen_order Sample.catalog
                          _ _) _)).
  - reflexivity.
  - intros l [<-|[<-|[<-|[]]]]; reflexivity.
Defined.

(** ** Blank queries *)

Lemma strip_all_ws1 (back : bool) (l : list ascii) :
  Forall (fun c => Js.ws1 c = true) l -> Js.strip back l = [].
Proof.
  induction 1 as [|c l Hc _ IH]; cbn; [reflexivity|]. now rewrite Hc.
Qed.

(** X19. A query parameter made of ASCII white space only (tab, line feed,
    vertical tab, form feed, carriage return, space), of any length, is
    answered like a missing one: 400 with no outbound call, provided the
    credential is set. *)
Theorem white_space_query_is_rejected (env : Env) (up : Upstream)
  (req : Request) (s : string) :
  Js.truthy (credential env) = true ->
  query_param req = Some s ->
  Forall (fun c => In (nat_of_ascii c) [9; 10; 11; 12; 13; 32])
    (list_ascii_of_string s) ->
  handle_images env up req =
  (status_json 400 (Error "query param is required"), []).
Proof.
  intros Hk Hq Hws. unfold handle_images. rewrite Hk. cbn [negb].
  assert (Hblank : trimmed_query req = "").
  { unfold trimmed_query. rewrite or_else_empty, Hq. unfold Js.trim.
    rewrite (strip_all_ws1 false); [reflexivity|].
    eapply Forall_impl; [|exact Hws]. intros c Hc. unfold Js.ws1, Js.code.
    rewrite <- (ascii_nat_embedding c).
    cbn in Hc. destruct Hc as [<-|[<-|[<-|[<-|[<-|[<-|[]]]]]]];
      reflexivity. }
  now rewrite Hblank.
Qed.

Lemma white_space_query_is_rejected_witness :
  handle_images Sample.env (Sample.upstream Sample.mixed_hits Sample.catalog)
    Sample.req_blank =
  (status_json 400 (Error "query param is required"), []).
Proof.
  apply (white_space_query_is_rejected Sample.env
           (Sample.upstream Sample.mixed_hits Sample.catalog)
           Sample.req_blank "   ").
  - reflexivity.
  - reflexivity.
  - repeat constructor; cbn; tauto.
Defined.
